(** * RAK4631 deep-sleep LoRa node: the radio event handling of [lora.cpp]

    A shallow embedding of [PlatformIO/LoRa-DeepSleep/src/lora.cpp]: the
    interrupt handler, the initialisation, one iteration of the event task,
    the transmit sequencer and the six radio callbacks, as functions on an
    explicit state that also return the calls and stores they perform, in
    program order. *)

From Stdlib Require Import ZArith String List Bool Lia.
From stdpp Require Import base list.
Import ListNotations.
Open Scope Z_scope.

(** ** Compile-time constants of [lora.cpp] (lines 16-29) *)

Definition RF_FREQUENCY : Z := 923300000.
Definition TX_OUTPUT_POWER : Z := 22.
Definition LORA_BANDWIDTH : Z := 0.
Definition LORA_SPREADING_FACTOR : Z := 7.
Definition LORA_CODINGRATE : Z := 1.
Definition LORA_PREAMBLE_LENGTH : Z := 8.
Definition LORA_SYMBOL_TIMEOUT : Z := 0.
Definition LORA_FIX_LENGTH_PAYLOAD_ON : bool := false.
Definition LORA_IQ_INVERSION_ON : bool := false.
Definition TX_TIMEOUT_VALUE : Z := 5000.
Definition PIN_LORA_DIO_1 : Z := 47.

(** ** Declarations the file takes from the driver, the RTOS and the board *)

Inductive RadioModems_t := MODEM_FSK | MODEM_LORA.
Inductive RadioLoRaCadSymbols_t :=
  LORA_CAD_01_SYMBOL | LORA_CAD_02_SYMBOL | LORA_CAD_04_SYMBOL
| LORA_CAD_08_SYMBOL | LORA_CAD_16_SYMBOL.
Inductive RadioCadExitModes_t := LORA_CAD_ONLY | LORA_CAD_RX | LORA_CAD_LBT.
Inductive InterruptMode := RISING | FALLING | CHANGE.
Inductive TaskPriority := TASK_PRIO_LOWEST | TASK_PRIO_LOW | TASK_PRIO_NORMAL | TASK_PRIO_HIGH.
Inductive Pin := LED_CONN | DIO (n : Z).

Definition HIGH : bool := true.
Definition LOW : bool := false.

(** FreeRTOS: a tick count that means "wait without limit", and the results
    of [xTaskCreate] ([BaseType_t]): [pdPASS] when the task was created,
    [errCOULD_NOT_ALLOCATE_REQUIRED_MEMORY] when it could not be. *)
Definition portMAX_DELAY : Z := 4294967295.
Definition pdPASS : Z := 1.
Definition pdFAIL : Z := 0.
Definition errCOULD_NOT_ALLOCATE_REQUIRED_MEMORY : Z := -1.

(** The two binary semaphores the file uses: its own [loraEvent] and the
    application's [taskEvent] (declared in [main.h]). *)
Inductive SemaphoreId := sem_loraEvent | sem_taskEvent.

(** The entries of [RadioEvents_t] the file fills in. *)
Inductive Callback :=
  cb_TxDone | cb_RxDone | cb_TxTimeout | cb_RxTimeout | cb_RxError | cb_CadDone.

(** ** Events: every call that leaves the file and every store into one of
    its globals, recorded in program order *)

Module Ev.
Inductive t : Type :=
  | myLog_d (format : string) (args : list Z)
  | delay (ms : Z)
  | millis
  | digitalWrite (pin : Pin) (level : bool)
  | attachInterrupt (pin : Z) (mode : InterruptMode)
  | xSemaphoreCreateBinary
  | xSemaphoreGive (h : SemaphoreId)
  | xSemaphoreTake (h : SemaphoreId) (ticks : Z)
  | xTaskCreate (name : string) (stackDepth : Z) (prio : TaskPriority)
  | lora_rak4630_init
  | Radio_Init
  | Radio_Sleep
  | Radio_Standby
  | Radio_SetChannel (freq : Z)
  | Radio_SetTxConfig (modem : RadioModems_t) (power fdev bandwidth datarate coderate preambleLen : Z)
      (fixLen crcOn : bool) (freqHopOn hopPeriod : Z) (iqInverted : bool) (timeout : Z)
  | Radio_SetRxConfig (modem : RadioModems_t) (bandwidth datarate coderate bandwidthAfc preambleLen symbTimeout : Z)
      (fixLen : bool) (payloadLen : Z) (crcOn : bool) (freqHopOn hopPeriod : Z) (iqInverted rxContinuous : bool)
  | Radio_SetCadParams (cadSymbolNum : RadioLoRaCadSymbols_t) (cadDetPeak cadDetMin : Z)
      (cadExitMode : RadioCadExitModes_t) (cadTimeout : Z)
  | Radio_StartCad
  | Radio_Send (buffer : list Z) (size : Z)
  | Radio_IrqProcessAfterDeepSleep
  | Store_loraEvent
  | Store_RadioEvents (entry : Callback)
  | Store_eventType (v : Z)
  | Store_TxdBuffer (index : nat) (v : Z)
  | Store_cadTime (v : Z)
  | Store_channelTimeout (v : Z).

Definition is_send (e : t) : bool :=
    match e with Radio_Send _ _ => true | _ => false end.

Definition is_irq_process (e : t) : bool :=
    match e with Radio_IrqProcessAfterDeepSleep => true | _ => false end.

  (** Calls into the radio driver. *)
Definition is_driver_call (e : t) : bool :=
    match e with
    | lora_rak4630_init | Radio_Init | Radio_Sleep | Radio_Standby
    | Radio_SetChannel _ | Radio_SetTxConfig _ _ _ _ _ _ _ _ _ _ _ _ _
    | Radio_SetRxConfig _ _ _ _ _ _ _ _ _ _ _ _ _ _
    | Radio_SetCadParams _ _ _ _ _ | Radio_StartCad | Radio_Send _ _
    | Radio_IrqProcessAfterDeepSleep => true
    | _ => false
    end.

Definition is_logging (e : t) : bool :=
    match e with myLog_d _ _ => true | _ => false end.

  (** Calls that may suspend the caller: a delay, or a take that is allowed
      to wait. *)
Definition is_blocking (e : t) : bool :=
    match e with
    | delay _ => true
    | xSemaphoreTake _ ticks => 0 <? ticks
    | _ => false
    end.
End Ev.

(** ** State *)

(** Modelled from the spec: the mode of the radio behind the driver
    facade (section 3, RadioState).  The driver itself is not part of the
    repository; [Radio.Sleep] puts the radio in [Sleeping], [Radio.Standby]
    and [Radio.Init] in [Idle], [Radio.StartCad] in [Cad], [Radio.Send] in
    [Sending]; the two configuration calls pass through the configuring
    modes; [SetChannel] and [SetCadParams] leave the mode alone. *)
Inductive RadioState :=
  Idle | Sleeping | ConfiguringTx | ConfiguringRx | Cad | Sending | Receiving.

(** [RadioEvents]: which entries of the callback table hold their handler
    (the only value the file ever assigns to an entry is the handler of the
    same name); [false] is a null entry. *)
Record RadioEvents_t := mkRadioEvents {
  TxDone : bool; RxDone : bool; TxTimeout : bool;
  RxTimeout : bool; RxError : bool; CadDone : bool }.

Definition RadioEvents_set (e : Callback) (r : RadioEvents_t) : RadioEvents_t :=
  match e with
  | cb_TxDone => mkRadioEvents true (RxDone r) (TxTimeout r) (RxTimeout r) (RxError r) (CadDone r)
  | cb_RxDone => mkRadioEvents (TxDone r) true (TxTimeout r) (RxTimeout r) (RxError r) (CadDone r)
  | cb_TxTimeout => mkRadioEvents (TxDone r) (RxDone r) true (RxTimeout r) (RxError r) (CadDone r)
  | cb_RxTimeout => mkRadioEvents (TxDone r) (RxDone r) (TxTimeout r) true (RxError r) (CadDone r)
  | cb_RxError => mkRadioEvents (TxDone r) (RxDone r) (TxTimeout r) (RxTimeout r) true (CadDone r)
  | cb_CadDone => mkRadioEvents (TxDone r) (RxDone r) (TxTimeout r) (RxTimeout r) (RxError r) true
  end.

(** The globals of [lora.cpp] (lines 32-59), the two globals of [main.h] that
    [OnRxDone] touches, the level of the indicator pin and the radio mode.
    A semaphore handle is [None] while it is [NULL], and [Some c] once
    created, [c] telling whether the binary semaphore holds its credit.
    Bytes and times are integers; a store into a [uint8_t] wraps. *)
Record State := mkState {
  RadioEvents : RadioEvents_t;
  cadTime : Z;
  channelTimeout : Z;
  channelFreeRetryNum : Z;
  TxdBuffer : list Z;
  lastRSSI : Z;
  loraTaskHandle : bool;
  loraEvent : option bool;
  taskEvent : option bool;
  eventType : Z;
  led : bool;
  radio : RadioState }.

Definition set_RadioEvents (v : RadioEvents_t) (s : State) : State :=
  mkState v (cadTime s) (channelTimeout s) (channelFreeRetryNum s) (TxdBuffer s)
    (lastRSSI s) (loraTaskHandle s) (loraEvent s) (taskEvent s) (eventType s) (led s) (radio s).
Definition set_cadTime (v : Z) (s : State) : State :=
  mkState (RadioEvents s) v (channelTimeout s) (channelFreeRetryNum s) (TxdBuffer s)
    (lastRSSI s) (loraTaskHandle s) (loraEvent s) (taskEvent s) (eventType s) (led s) (radio s).
Definition set_channelTimeout (v : Z) (s : State) : State :=
  mkState (RadioEvents s) (cadTime s) v (channelFreeRetryNum s) (TxdBuffer s)
    (lastRSSI s) (loraTaskHandle s) (loraEvent s) (taskEvent s) (eventType s) (led s) (radio s).
Definition set_channelFreeRetryNum (v : Z) (s : State) : State :=
  mkState (RadioEvents s) (cadTime s) (channelTimeout s) v (TxdBuffer s)
    (lastRSSI s) (loraTaskHandle s) (loraEvent s) (taskEvent s) (eventType s) (led s) (radio s).
Definition set_TxdBuffer (v : list Z) (s : State) : State :=
  mkState (RadioEvents s) (cadTime s) (channelTimeout s) (channelFreeRetryNum s) v
    (lastRSSI s) (loraTaskHandle s) (loraEvent s) (taskEvent s) (eventType s) (led s) (radio s).
Definition set_loraTaskHandle (v : bool) (s : State) : State :=
  mkState (RadioEvents s) (cadTime s) (channelTimeout s) (channelFreeRetryNum s) (TxdBuffer s)
    (lastRSSI s) v (loraEvent s) (taskEvent s) (eventType s) (led s) (radio s).
Definition set_loraEvent (v : option bool) (s : State) : State :=
  mkState (RadioEvents s) (cadTime s) (channelTimeout s) (channelFreeRetryNum s) (TxdBuffer s)
    (lastRSSI s) (loraTaskHandle s) v (taskEvent s) (eventType s) (led s) (radio s).
Definition set_taskEvent (v : option bool) (s : State) : State :=
  mkState (RadioEvents s) (cadTime s) (channelTimeout s) (channelFreeRetryNum s) (TxdBuffer s)
    (lastRSSI s) (loraTaskHandle s) (loraEvent s) v (eventType s) (led s) (radio s).
Definition set_eventType (v : Z) (s : State) : State :=
  mkState (RadioEvents s) (cadTime s) (channelTimeout s) (channelFreeRetryNum s) (TxdBuffer s)
    (lastRSSI s) (loraTaskHandle s) (loraEvent s) (taskEvent s) v (led s) (radio s).
Definition set_led (v : bool) (s : State) : State :=
  mkState (RadioEvents s) (cadTime s) (channelTimeout s) (channelFreeRetryNum s) (TxdBuffer s)
    (lastRSSI s) (loraTaskHandle s) (loraEvent s) (taskEvent s) (eventType s) v (radio s).
Definition set_radio (v : RadioState) (s : State) : State :=
  mkState (RadioEvents s) (cadTime s) (channelTimeout s) (channelFreeRetryNum s) (TxdBuffer s)
    (lastRSSI s) (loraTaskHandle s) (loraEvent s) (taskEvent s) (eventType s) (led s) v.

(** The state at reset: zeroed globals (C static initialisation), null
    handles, a 256-byte transmit buffer. *)
Definition reset_state : State :=
  mkState (mkRadioEvents false false false false false false) 0 0 0
    (replicate 256 0) 0 false None None 0 LOW Idle.

(** ** The monad of the embedding: state, recorded events, faults *)

(** A run either completes with a result, the new state and the events it
    performed, or faults (a null semaphore handed to the RTOS, an access
    outside an array). *)
Inductive Outcome (A : Type) : Type :=
| Done (x : A) (s : State) (evs : list Ev.t)
| Fault.
Arguments Done {A} x s evs.
Arguments Fault {A}.

Definition M (A : Type) : Type := State -> Outcome A.

#[global] Instance M_ret : MRet M := fun A x s => Done x s [].
#[global] Instance M_bind : MBind M := fun A B f m s =>
  match m s with
  | Done x s1 e1 =>
      match f x s1 with
      | Done y s2 e2 => Done y s2 (e1 ++ e2)
      | Fault => Fault
      end
  | Fault => Fault
  end.

Definition fault {A : Type} : M A := fun _ => Fault.
Definition emit (e : Ev.t) : M unit := fun s => Done tt s [e].
Definition gets {A : Type} (f : State -> A) : M A := fun s => Done (f s) s [].
Definition modify (f : State -> State) : M unit := fun s => Done tt (f s) [].
Definition when (b : bool) (m : M unit) : M unit := if b then m else mret tt.

(** The events of a completed run, and its final state. *)
Definition events {A : Type} (o : Outcome A) : list Ev.t :=
  match o with Done _ _ evs => evs | Fault => [] end.
Definition completes {A : Type} (o : Outcome A) : bool :=
  match o with Done _ _ _ => true | Fault => false end.

(** A store into a [uint8_t] keeps the value modulo 256. *)
Definition to_uint8 (v : Z) : Z := v mod 256.

(** ** Primitive statements *)

Definition sem_get (h : SemaphoreId) (s : State) : option bool :=
  match h with sem_loraEvent => loraEvent s | sem_taskEvent => taskEvent s end.
Definition sem_set (h : SemaphoreId) (v : option bool) (s : State) : State :=
  match h with sem_loraEvent => set_loraEvent v s | sem_taskEvent => set_taskEvent v s end.

(** [xSemaphoreGive]: posts the credit of a binary semaphore; when the credit
    is already there the call fails and nothing is added.  It never waits.
    The RTOS dereferences the handle, so a null handle is a fault. *)
Definition xSemaphoreGive (h : SemaphoreId) : M bool := fun s =>
  match sem_get h s with
  | None => Fault
  | Some c => Done (negb c) (sem_set h (Some true) s) [Ev.xSemaphoreGive h]
  end.

(** [xSemaphoreTake] with a finite wait: takes the credit if there is one,
    otherwise gives up after [ticks]; either way no credit is left. *)
Definition xSemaphoreTake (h : SemaphoreId) (ticks : Z) : M bool := fun s =>
  match sem_get h s with
  | None => Fault
  | Some c => Done c (sem_set h (Some false) s) [Ev.xSemaphoreTake h ticks]
  end.

(** [loraEvent = xSemaphoreCreateBinary()]: the new semaphore holds no
    credit; [created] tells whether the RTOS could allocate it. *)
Definition create_loraEvent (created : bool) : M unit := fun s =>
  Done tt (set_loraEvent (if created then Some false else None) s)
    [Ev.xSemaphoreCreateBinary; Ev.Store_loraEvent].

Definition delay (ms : Z) : M unit := emit (Ev.delay ms).

(** [millis()], the environment supplying the reading. *)
Definition millis (now : Z) : M Z := fun s => Done now s [Ev.millis].

Definition digitalWrite_LED_CONN (level : bool) : M unit := fun s =>
  Done tt (set_led level s) [Ev.digitalWrite LED_CONN level].

Definition attachInterrupt (pin : Z) (mode : InterruptMode) : M unit :=
  emit (Ev.attachInterrupt pin mode).

(** [xTaskCreate(loraTask, ...)], the environment supplying the result; the
    handle is written only when the task was created. *)
Definition xTaskCreate (result : Z) (name : string) (stackDepth : Z) (prio : TaskPriority) : M Z :=
  fun s => Done result (if result =? pdPASS then set_loraTaskHandle true s else s)
             [Ev.xTaskCreate name stackDepth prio].

(** [lora_rak4630_init()], the environment supplying the result. *)
Definition lora_rak4630_init (result : Z) : M Z := fun s => Done result s [Ev.lora_rak4630_init].

Definition driver_call (e : Ev.t) (mode : RadioState -> RadioState) : M unit := fun s =>
  Done tt (set_radio (mode (radio s)) s) [e].

Definition Radio_Init : M unit := driver_call Ev.Radio_Init (fun _ => Idle).
Definition Radio_Sleep : M unit := driver_call Ev.Radio_Sleep (fun _ => Sleeping).
Definition Radio_Standby : M unit := driver_call Ev.Radio_Standby (fun _ => Idle).
Definition Radio_SetChannel (freq : Z) : M unit := driver_call (Ev.Radio_SetChannel freq) id.
Definition Radio_SetTxConfig (modem : RadioModems_t) (power fdev bandwidth datarate coderate preambleLen : Z)
    (fixLen crcOn : bool) (freqHopOn hopPeriod : Z) (iqInverted : bool) (timeout : Z) : M unit :=
  driver_call (Ev.Radio_SetTxConfig modem power fdev bandwidth datarate coderate preambleLen
                 fixLen crcOn freqHopOn hopPeriod iqInverted timeout) (fun _ => ConfiguringTx).
Definition Radio_SetRxConfig (modem : RadioModems_t) (bandwidth datarate coderate bandwidthAfc preambleLen symbTimeout : Z)
    (fixLen : bool) (payloadLen : Z) (crcOn : bool) (freqHopOn hopPeriod : Z) (iqInverted rxContinuous : bool) : M unit :=
  driver_call (Ev.Radio_SetRxConfig modem bandwidth datarate coderate bandwidthAfc preambleLen symbTimeout
                 fixLen payloadLen crcOn freqHopOn hopPeriod iqInverted rxContinuous) (fun _ => ConfiguringRx).
Definition Radio_SetCadParams (cadSymbolNum : RadioLoRaCadSymbols_t) (cadDetPeak cadDetMin : Z)
    (cadExitMode : RadioCadExitModes_t) (cadTimeout : Z) : M unit :=
  driver_call (Ev.Radio_SetCadParams cadSymbolNum cadDetPeak cadDetMin cadExitMode cadTimeout) id.
Definition Radio_StartCad : M unit := driver_call Ev.Radio_StartCad (fun _ => Cad).

(** [Radio.Send(TxdBuffer, size)]: the driver reads the first [size] bytes
    of the transmit buffer; reading past the array is a fault. *)
Definition Radio_Send_TxdBuffer (size : Z) : M unit := fun s =>
  if (0 <=? size) && (size <=? Z.of_nat (length (TxdBuffer s))) then
    Done tt (set_radio Sending s) [Ev.Radio_Send (take (Z.to_nat size) (TxdBuffer s)) size]
  else Fault.

(** [TxdBuffer[index] = v]. *)
Definition store_TxdBuffer (index : nat) (v : Z) : M unit := fun s =>
  if (index <? length (TxdBuffer s))%nat then
    Done tt (set_TxdBuffer (<[index := to_uint8 v]> (TxdBuffer s)) s)
      [Ev.Store_TxdBuffer index (to_uint8 v)]
  else Fault.

Definition store_cadTime (v : Z) : M unit := fun s =>
  Done tt (set_cadTime v s) [Ev.Store_cadTime v].
Definition store_channelTimeout (v : Z) : M unit := fun s =>
  Done tt (set_channelTimeout v s) [Ev.Store_channelTimeout v].
Definition store_eventType (v : Z) : M unit := fun s =>
  Done tt (set_eventType v s) [Ev.Store_eventType v].
Definition store_RadioEvents (entry : Callback) : M unit := fun s =>
  Done tt (set_RadioEvents (RadioEvents_set entry (RadioEvents s)) s) [Ev.Store_RadioEvents entry].

(** ** The hexadecimal dump of [OnRxDone] (lines 250-257) *)

Definition hex_digit (n : Z) : string :=
  match n with
  | 0 => "0" | 1 => "1" | 2 => "2" | 3 => "3" | 4 => "4" | 5 => "5" | 6 => "6" | 7 => "7"
  | 8 => "8" | 9 => "9" | 10 => "A" | 11 => "B" | 12 => "C" | 13 => "D" | 14 => "E" | _ => "F"
  end%string.

(** [sprintf("%02X ", b)] for a byte [b]. *)
Definition sprintf_02X (b : Z) : string :=
  (hex_digit (to_uint8 b / 16) ++ hex_digit (to_uint8 b mod 16) ++ " ")%string.

(** The loop [for (idx = 0; idx < size * 3; idx += 3)], [n] iterations left:
    each one reads [payload[index]] and writes three characters and the
    terminating zero at [rcvdData[idx..idx+3]], an array of 1024. *)
Fixpoint rcvdData_loop (payload : list Z) (n : nat) (idx : Z) (index : nat) (rcvdData : string)
  : option string :=
  match n with
  | O => Some rcvdData
  | S n' =>
      match payload !! index with
      | None => None
      | Some b =>
          if idx + 3 <? 1024
          then rcvdData_loop payload n' (idx + 3) (S index) (rcvdData ++ sprintf_02X b)%string
          else None
      end
  end.

Definition format_rcvdData (payload : list Z) (size : Z) : M string := fun s =>
  match rcvdData_loop payload (Z.to_nat size) 0 0 "" with
  | Some str => Done str s []
  | None => Fault
  end.

(** ** The functions of [lora.cpp] *)

(** An invocation of one of the six callbacks, with its arguments. *)
Inductive Invocation :=
| call_OnTxDone
| call_OnRxDone (payload : list Z) (size rssi snr : Z)
| call_OnTxTimeout
| call_OnRxTimeout
| call_OnRxError
| call_OnCadDone (cadResult : bool).

Definition entry_of (c : Invocation) : Callback :=
  match c with
  | call_OnTxDone => cb_TxDone
  | call_OnRxDone _ _ _ _ => cb_RxDone
  | call_OnTxTimeout => cb_TxTimeout
  | call_OnRxTimeout => cb_RxTimeout
  | call_OnRxError => cb_RxError
  | call_OnCadDone _ => cb_CadDone
  end.

Definition registered (e : Callback) (r : RadioEvents_t) : bool :=
  match e with
  | cb_TxDone => TxDone r | cb_RxDone => RxDone r | cb_TxTimeout => TxTimeout r
  | cb_RxTimeout => RxTimeout r | cb_RxError => RxError r | cb_CadDone => CadDone r
  end.

Section Firmware.

  (** The two facts about [main.h] that the file's conditional compilation
      depends on: whether [MYLOG_LOG_LEVEL > MYLOG_LOG_LEVEL_NONE] holds, and
      whether [myLog_d] expands to a print at that level (when it does not,
      it expands to nothing and its arguments are not evaluated).
      [TX_ONLY] is defined by the file itself (line 14), so of each
      [#ifdef TX_ONLY] only the first branch exists. *)
Variable LOG_ENABLED : bool.
Variable DEBUG_ENABLED : bool.

Definition myLog_d (format : string) (args : list Z) : M unit :=
    when DEBUG_ENABLED (emit (Ev.myLog_d format args)).

  (** Lines 66-74. *)
Definition loraIntHandler : M unit :=
    h ← gets loraEvent;
    when (bool_decide (h ≠ None)) (xSemaphoreGive sem_loraEvent ;; mret tt).

  (** Lines 76-144.  The environment supplies whether the semaphore could be
      created and the results of [lora_rak4630_init] and [xTaskCreate]. *)
Definition initLoRa (created : bool) (init_result task_result : Z) : M bool :=
    myLog_d "Create LoRa semaphore" [] ;;
    delay 100 ;;
    create_loraEvent created ;;
    myLog_d "Initialize LoRa Semaphore" [] ;;
    delay 100 ;;
    xSemaphoreGive sem_loraEvent ;;
    myLog_d "Take LoRa Semaphore" [] ;;
    delay 100 ;;
    xSemaphoreTake sem_loraEvent 10 ;;
    r ← lora_rak4630_init init_result;
    if r =? 1 then mret false
    else
      store_RadioEvents cb_TxDone ;;
      store_RadioEvents cb_RxDone ;;
      store_RadioEvents cb_TxTimeout ;;
      store_RadioEvents cb_RxTimeout ;;
      store_RadioEvents cb_RxError ;;
      store_RadioEvents cb_CadDone ;;
      Radio_Init ;;
      Radio_Sleep ;;
      Radio_SetChannel RF_FREQUENCY ;;
      Radio_SetTxConfig MODEM_LORA TX_OUTPUT_POWER 0 LORA_BANDWIDTH
        LORA_SPREADING_FACTOR LORA_CODINGRATE
        LORA_PREAMBLE_LENGTH LORA_FIX_LENGTH_PAYLOAD_ON
        true 0 0 LORA_IQ_INVERSION_ON TX_TIMEOUT_VALUE ;;
      Radio_SetRxConfig MODEM_LORA LORA_BANDWIDTH LORA_SPREADING_FACTOR
        LORA_CODINGRATE 0 LORA_PREAMBLE_LENGTH
        LORA_SYMBOL_TIMEOUT LORA_FIX_LENGTH_PAYLOAD_ON
        0 true 0 0 LORA_IQ_INVERSION_ON true ;;
      attachInterrupt PIN_LORA_DIO_1 RISING ;;
      myLog_d "Starting LoRaWan task" [] ;;
      t ← xTaskCreate task_result "LORA" 2048 TASK_PRIO_LOW;
      if t =? 0 then mret false
      else
        Radio_Sleep ;;
        mret true.

  (** Lines 173-206.  [t1] and [t2] are the two readings of [millis()]. *)
Definition sendLoRa (t1 t2 : Z) : M unit :=
    store_TxdBuffer 0 7 ;;
    store_TxdBuffer 1 0 ;;
    store_TxdBuffer 2 0 ;;
    store_TxdBuffer 3 27 ;;
    store_TxdBuffer 4 35 ;;
    store_TxdBuffer 5 67 ;;
    store_TxdBuffer 6 55 ;;
    store_TxdBuffer 7 34 ;;
    store_TxdBuffer 8 12 ;;
    store_TxdBuffer 9 75 ;;
    store_TxdBuffer 10 0 ;;
    store_TxdBuffer 11 (-80) ;;
    store_TxdBuffer 12 0 ;;
    store_TxdBuffer 13 0 ;;
    Radio_Sleep ;;
    Radio_SetCadParams LORA_CAD_08_SYMBOL (LORA_SPREADING_FACTOR + 13) 10 LORA_CAD_ONLY 0 ;;
    t ← millis t1; store_cadTime t ;;
    t ← millis t2; store_channelTimeout t ;;
    when LOG_ENABLED (digitalWrite_LED_CONN HIGH) ;;
    Radio_StartCad ;;
    xSemaphoreTake sem_loraEvent 10 ;;
    mret tt.

  (** The tail shared by [OnTxDone], [OnRxDone], [OnTxTimeout],
      [OnRxTimeout], [OnRxError] and the busy branch of [OnCadDone]:
      radio to sleep, indicator off, handler task back to sleep. *)
Definition back_to_sleep : M unit :=
    Radio_Sleep ;;
    when LOG_ENABLED (digitalWrite_LED_CONN LOW) ;;
    xSemaphoreTake sem_loraEvent 10 ;;
    mret tt.

  (** Lines 211-232. *)
Definition OnTxDone : M unit :=
    myLog_d "OnTxDone" [] ;;
    back_to_sleep.

  (** Lines 236-278. *)
Definition OnRxDone (payload : list Z) (size rssi snr : Z) : M unit :=
    myLog_d "OnRxDone" [] ;;
    delay 10 ;;
    store_eventType 0 ;;
    h ← gets taskEvent;
    when (bool_decide (h ≠ None)) (xSemaphoreGive sem_taskEvent ;; mret tt) ;;
    when LOG_ENABLED (rcvdData ← format_rcvdData payload size; myLog_d rcvdData []) ;;
    back_to_sleep.

  (** Lines 282-304. *)
Definition OnTxTimeout : M unit :=
    myLog_d "OnTxTimeout" [] ;;
    back_to_sleep.

  (** Lines 308-330. *)
Definition OnRxTimeout : M unit :=
    myLog_d "OnRxTimeout" [] ;;
    back_to_sleep.

  (** Lines 334-354. *)
Definition OnRxError : M unit :=
    back_to_sleep.

  (** Lines 358-386.  [now] is the reading of [millis()] in the log call. *)
Definition OnCadDone (now : Z) (cadResult : bool) : M unit :=
    if cadResult then back_to_sleep
    else
      when DEBUG_ENABLED
        (t ← millis now; c ← gets cadTime;
         emit (Ev.myLog_d "CAD returned channel free after %ldms\n" [t - c])) ;;
      Radio_Send_TxdBuffer 14.

Definition invoke (now : Z) (c : Invocation) : M unit :=
    match c with
    | call_OnTxDone => OnTxDone
    | call_OnRxDone payload size rssi snr => OnRxDone payload size rssi snr
    | call_OnTxTimeout => OnTxTimeout
    | call_OnRxTimeout => OnRxTimeout
    | call_OnRxError => OnRxError
    | call_OnCadDone cadResult => OnCadDone now cadResult
    end.

  (** Modelled from the spec: the driver's "process pending interrupt" entry
      point (sections 4.2 and 6), which is not part of the repository: it
      decodes the interrupt status and calls at most one callback, through the
      table handed to [Radio.Init]; with nothing pending, or a null entry, it
      calls none. *)
Definition Radio_IrqProcessAfterDeepSleep (pending : option Invocation) (now : Z) : M unit :=
    emit Ev.Radio_IrqProcessAfterDeepSleep ;;
    match pending with
    | None => mret tt
    | Some c =>
        r ← gets RadioEvents;
        when (registered (entry_of c) r) (invoke now c)
    end.

  (** One iteration of the loop of [loraTask] (lines 150-167).  The take
      waits without limit: with no credit the task stays suspended in it, so
      the iteration performs nothing and reports [false]; with a credit the
      task wakes, processes the interrupt and reports [true]. *)
Definition loraTask_iteration (pending : option Invocation) (now : Z) : M bool := fun s =>
    match loraEvent s with
    | None => Fault
    | Some false => Done false s []
    | Some true =>
        (xSemaphoreTake sem_loraEvent portMAX_DELAY ;;
         when LOG_ENABLED (digitalWrite_LED_CONN HIGH) ;;
         Radio_IrqProcessAfterDeepSleep pending now ;;
         mret true) s
    end.

  (** ** Schedules: what can happen to the module, in some order *)

Inductive Op :=
  | op_edge                                                  (* rising edge on DIO1 *)
  | op_loop (pending : option Invocation) (now : Z)          (* the task's loop runs once *)
  | op_sendLoRa (t1 t2 : Z)                                  (* a cycle is triggered *)
  | op_callback (c : Invocation) (now : Z).                  (* a callback is called *)

Definition exec (o : Op) : M unit :=
    match o with
    | op_edge => loraIntHandler
    | op_loop pending now => loraTask_iteration pending now ;; mret tt
    | op_sendLoRa t1 t2 => sendLoRa t1 t2
    | op_callback c now => invoke now c
    end.

Fixpoint run (ops : list Op) : M unit :=
    match ops with
    | [] => mret tt
    | o :: ops' => exec o ;; run ops'
    end.

End Firmware.

(** ** Notions used in the statements *)

(** What every entry point other than [initLoRa] relies on: the semaphore
    has been created, and the transmit buffer is the 256-byte array the file
    declares. *)
Definition ready (s : State) : Prop :=
  loraEvent s ≠ None ∧ length (TxdBuffer s) = 256%nat.

Definition final {A : Type} (o : Outcome A) : option State :=
  match o with Done _ s _ => Some s | Fault => None end.

(** The state an outcome ends in (the reset state for a fault). *)
Definition after {A : Type} (o : Outcome A) : State := default reset_state (final o).

(** The state [initLoRa] leaves when everything succeeds, from reset. *)
Definition booted (DBG : bool) : State :=
  default reset_state (final (initLoRa DBG true 0 pdPASS reset_state)).

(** The calls of [Radio.Send] among some events, and the number of times the
    task woke and called [Radio.IrqProcessAfterDeepSleep]. *)
Definition sends (evs : list Ev.t) : list Ev.t := List.filter Ev.is_send evs.
Definition wakeups (evs : list Ev.t) : nat := length (List.filter Ev.is_irq_process evs).

Definition is_edge (o : Op) : bool :=
  match o with op_edge => true | _ => false end.
Definition edges (ops : list Op) : nat := length (List.filter is_edge ops).

(** The dump of [OnRxDone] stays inside [rcvdData] (1024 characters) and
    inside the payload; it only exists when logging is compiled in.  The
    driver reports at most 255 bytes, of a buffer that holds them. *)
Definition dump_fits (LOG : bool) (c : Invocation) : bool :=
  match c with
  | call_OnRxDone payload size _ _ =>
      negb LOG || ((size <=? 341) && (size <=? Z.of_nat (length payload)))
  | _ => true
  end.

(** A schedule of the interrupt bridge and the dispatch loop alone. *)
Definition bridge_op (LOG : bool) (o : Op) : bool :=
  match o with
  | op_edge => true
  | op_loop None _ => true
  | op_loop (Some c) _ => dump_fits LOG c
  | _ => false
  end.

(** The frame [sendLoRa] writes (lines 175-188), as the bytes in memory. *)
Definition OutgoingFrame : list Z := [7; 0; 0; 27; 35; 67; 55; 34; 12; 75; 0; 176; 0; 0].

Definition sendLoRa_events (LOG : bool) (t1 t2 : Z) : list Ev.t :=
  [Ev.Store_TxdBuffer 0 7; Ev.Store_TxdBuffer 1 0; Ev.Store_TxdBuffer 2 0;
   Ev.Store_TxdBuffer 3 27; Ev.Store_TxdBuffer 4 35; Ev.Store_TxdBuffer 5 67;
   Ev.Store_TxdBuffer 6 55; Ev.Store_TxdBuffer 7 34; Ev.Store_TxdBuffer 8 12;
   Ev.Store_TxdBuffer 9 75; Ev.Store_TxdBuffer 10 0; Ev.Store_TxdBuffer 11 176;
   Ev.Store_TxdBuffer 12 0; Ev.Store_TxdBuffer 13 0;
   Ev.Radio_Sleep;
   Ev.Radio_SetCadParams LORA_CAD_08_SYMBOL 20 10 LORA_CAD_ONLY 0;
   Ev.millis; Ev.Store_cadTime t1; Ev.millis; Ev.Store_channelTimeout t2]
  ++ (if LOG then [Ev.digitalWrite LED_CONN HIGH] else [])
  ++ [Ev.Radio_StartCad; Ev.xSemaphoreTake sem_loraEvent 10].

(** The state with the retry counter and the channel timeout marker blanked
    out, and an outcome seen through it. *)
Definition forget (s : State) : State :=
  set_channelFreeRetryNum 0 (set_channelTimeout 0 s).

Definition observe {A : Type} (o : Outcome A) : Outcome A :=
  match o with Done x s evs => Done x (forget s) evs | Fault => Fault end.

(** A computation that does not read the two variables. *)
Definition blind {A : Type} (m : M A) : Prop :=
  ∀ s1 s2, forget s1 = forget s2 → observe (m s1) = observe (m s2).

(** The post-condition of a callback that only puts the module back to
    sleep: radio asleep, indicator off (the indicator is only driven when
    logging is compiled in), no wake credit left. *)
Definition asleep_and_cleared (LOG : bool) (s s' : State) : Prop :=
  radio s' = Sleeping ∧ led s' = (if LOG then LOW else led s) ∧ loraEvent s' = Some false.

(** The same, as the specification words it for every callback. *)
Definition asleep_cleared_consumed (s' : State) : Prop :=
  radio s' = Sleeping ∧ led s' = LOW ∧ loraEvent s' = Some false.

(** The driver calls of [sendLoRa] as the specification lists them, standby
    first. *)
Definition standby_cad_calls : list Ev.t :=
  [Ev.Radio_Standby;
   Ev.Radio_SetCadParams LORA_CAD_08_SYMBOL (LORA_SPREADING_FACTOR + 13) 10 LORA_CAD_ONLY 0;
   Ev.Radio_StartCad].

(** The wake credit outstanding on [loraEvent]. *)
Definition credit (s : State) : nat :=
  match loraEvent s with Some true => 1 | _ => 0 end.

(** The events of [initLoRa]: up to the driver initialisation, and from the
    callback table to the creation of the task. *)
Definition initLoRa_prologue (DBG : bool) : list Ev.t :=
  (if DBG then [Ev.myLog_d "Create LoRa semaphore" []] else [])
  ++ [Ev.delay 100; Ev.xSemaphoreCreateBinary; Ev.Store_loraEvent]
  ++ (if DBG then [Ev.myLog_d "Initialize LoRa Semaphore" []] else [])
  ++ [Ev.delay 100; Ev.xSemaphoreGive sem_loraEvent]
  ++ (if DBG then [Ev.myLog_d "Take LoRa Semaphore" []] else [])
  ++ [Ev.delay 100; Ev.xSemaphoreTake sem_loraEvent 10; Ev.lora_rak4630_init].

Definition initLoRa_radio_setup (DBG : bool) : list Ev.t :=
  [Ev.Store_RadioEvents cb_TxDone; Ev.Store_RadioEvents cb_RxDone;
   Ev.Store_RadioEvents cb_TxTimeout; Ev.Store_RadioEvents cb_RxTimeout;
   Ev.Store_RadioEvents cb_RxError; Ev.Store_RadioEvents cb_CadDone;
   Ev.Radio_Init; Ev.Radio_Sleep; Ev.Radio_SetChannel RF_FREQUENCY;
   Ev.Radio_SetTxConfig MODEM_LORA TX_OUTPUT_POWER 0 LORA_BANDWIDTH LORA_SPREADING_FACTOR
     LORA_CODINGRATE LORA_PREAMBLE_LENGTH LORA_FIX_LENGTH_PAYLOAD_ON true 0 0
     LORA_IQ_INVERSION_ON TX_TIMEOUT_VALUE;
   Ev.Radio_SetRxConfig MODEM_LORA LORA_BANDWIDTH LORA_SPREADING_FACTOR LORA_CODINGRATE 0
     LORA_PREAMBLE_LENGTH LORA_SYMBOL_TIMEOUT LORA_FIX_LENGTH_PAYLOAD_ON 0 true 0 0
     LORA_IQ_INVERSION_ON true;
   Ev.attachInterrupt PIN_LORA_DIO_1 RISING]
  ++ (if DBG then [Ev.myLog_d "Starting LoRaWan task" []] else [])
  ++ [Ev.xTaskCreate "LORA" 2048 TASK_PRIO_LOW].

(** ** Closed forms of the operations, for the properties of schedules *)

(** The state and the events of the tail shared by the callbacks. *)
Definition asleep (LOG : bool) (s : State) : State :=
  set_loraEvent (Some false) (set_led (if LOG then LOW else led s) (set_radio Sleeping s)).

Definition sleep_events (LOG : bool) : list Ev.t :=
  [Ev.Radio_Sleep] ++ (if LOG then [Ev.digitalWrite LED_CONN LOW] else [])
  ++ [Ev.xSemaphoreTake sem_loraEvent 10].

(** The state a callback leaves, and the events it performs. *)
Definition callback_state (LOG : bool) (c : Invocation) (s : State) : State :=
  match c with
  | call_OnCadDone false => set_radio Sending s
  | call_OnRxDone _ _ _ _ =>
      asleep LOG (set_taskEvent (match taskEvent s with Some _ => Some true | None => None end)
                    (set_eventType 0 s))
  | _ => asleep LOG s
  end.

Definition log_event (DBG : bool) (format : string) (args : list Z) : list Ev.t :=
  if DBG then [Ev.myLog_d format args] else [].

Definition callback_events (LOG DBG : bool) (now : Z) (c : Invocation) (s : State) : list Ev.t :=
  match c with
  | call_OnTxDone => log_event DBG "OnTxDone" [] ++ sleep_events LOG
  | call_OnRxDone payload size _ _ =>
      log_event DBG "OnRxDone" []
      ++ [Ev.delay 10; Ev.Store_eventType 0]
      ++ (match taskEvent s with Some _ => [Ev.xSemaphoreGive sem_taskEvent] | None => [] end)
      ++ (if LOG
          then log_event DBG (default ""%string (rcvdData_loop payload (Z.to_nat size) 0 0 "")) []
          else [])
      ++ sleep_events LOG
  | call_OnTxTimeout => log_event DBG "OnTxTimeout" [] ++ sleep_events LOG
  | call_OnRxTimeout => log_event DBG "OnRxTimeout" [] ++ sleep_events LOG
  | call_OnRxError => sleep_events LOG
  | call_OnCadDone true => sleep_events LOG
  | call_OnCadDone false =>
      (if DBG
       then [Ev.millis; Ev.myLog_d "CAD returned channel free after %ldms\n" [now - cadTime s]]
       else [])
      ++ [Ev.Radio_Send (take 14 (TxdBuffer s)) 14]
  end.

(** Operations whose hex dump, if any, fits. *)
Definition op_fits (LOG : bool) (o : Op) : bool :=
  match o with
  | op_loop (Some c) _ | op_callback c _ => dump_fits LOG c
  | _ => true
  end.

Definition is_sendLoRa (o : Op) : bool :=
  match o with op_sendLoRa _ _ => true | _ => false end.

Definition is_led_write (e : Ev.t) : bool :=
  match e with Ev.digitalWrite LED_CONN _ => true | _ => false end.

(** The task after a wake-up, before the driver processes the interrupt. *)
Definition woken (LOG : bool) (s : State) : State :=
  set_led (if LOG then HIGH else led s) (set_loraEvent (Some false) s).

(** The callback the driver calls for a pending interrupt: none when nothing
    is pending or the entry of the table is null. *)
Definition delivered (pending : option Invocation) (s : State) : option Invocation :=
  match pending with
  | Some c => if registered (entry_of c) (RadioEvents s) then Some c else None
  | None => None
  end.

(** The state an operation leaves and the events it performs, in closed
    form. *)
Definition step_state (LOG : bool) (o : Op) (s : State) : State :=
  match o with
  | op_edge => set_loraEvent (Some true) s
  | op_loop pending _ =>
      match loraEvent s with
      | Some true =>
          match delivered pending s with
          | Some c => callback_state LOG c (woken LOG s)
          | None => woken LOG s
          end
      | _ => s
      end
  | op_sendLoRa t1 t2 =>
      mkState (RadioEvents s) t1 t2 (channelFreeRetryNum s)
        (OutgoingFrame ++ drop 14 (TxdBuffer s)) (lastRSSI s) (loraTaskHandle s)
        (Some false) (taskEvent s) (eventType s) (if LOG then HIGH else led s) Cad
  | op_callback c _ => callback_state LOG c s
  end.

Definition step_events (LOG DBG : bool) (o : Op) (s : State) : list Ev.t :=
  match o with
  | op_edge => [Ev.xSemaphoreGive sem_loraEvent]
  | op_loop pending now =>
      match loraEvent s with
      | Some true =>
          [Ev.xSemaphoreTake sem_loraEvent portMAX_DELAY]
          ++ (if LOG then [Ev.digitalWrite LED_CONN HIGH] else [])
          ++ [Ev.Radio_IrqProcessAfterDeepSleep]
          ++ match delivered pending s with
             | Some c => callback_events LOG DBG now c (woken LOG s)
             | None => []
             end
      | _ => []
      end
  | op_sendLoRa t1 t2 => sendLoRa_events LOG t1 t2
  | op_callback c now => callback_events LOG DBG now c s
  end.

Fixpoint run_state (LOG : bool) (ops : list Op) (s : State) : State :=
  match ops with
  | [] => s
  | o :: ops' => run_state LOG ops' (step_state LOG o s)
  end.

Fixpoint run_events (LOG DBG : bool) (ops : list Op) (s : State) : list Ev.t :=
  match ops with
  | [] => []
  | o :: ops' => step_events LOG DBG o s ++ run_events LOG DBG ops' (step_state LOG o s)
  end.

(** The first 14 bytes of the transmit buffer are the frame. *)
Definition framed (s : State) : Prop := take 14 (TxdBuffer s) = OutgoingFrame.

Definition is_store_TxdBuffer (e : Ev.t) : bool :=
  match e with Ev.Store_TxdBuffer _ _ => true | _ => false end.

(** The callbacks that only put the module back to sleep. *)
Definition plain (c : Invocation) : bool :=
  match c with
  | call_OnTxDone | call_OnTxTimeout | call_OnRxTimeout | call_OnRxError
  | call_OnCadDone true => true
  | _ => false
  end.

(** Two hexadecimal digits and a space for each byte. *)
Fixpoint hex_dump (bytes : list Z) : string :=
  match bytes with
  | [] => ""
  | b :: bytes' => sprintf_02X b ++ hex_dump bytes'
  end%string.

Definition is_attachInterrupt (e : Ev.t) : bool :=
  match e with Ev.attachInterrupt _ _ => true | _ => false end.

Definition is_xTaskCreate (e : Ev.t) : bool :=
  match e with Ev.xTaskCreate _ _ _ => true | _ => false end.

(** ** What each function does, as equations *)

Lemma sendLoRa_done LOG t1 t2 s :
  ready s →
  sendLoRa LOG t1 t2 s =
    Done tt (mkState (RadioEvents s) t1 t2 (channelFreeRetryNum s)
               (OutgoingFrame ++ drop 14 (TxdBuffer s)) (lastRSSI s) (loraTaskHandle s)
               (Some false) (taskEvent s) (eventType s)
               (if LOG then HIGH else led s) Cad)
      (sendLoRa_events LOG t1 t2).
Proof.
  intros [Hc Hlen]. destruct s as [re ct cto cfr buf rssi th le te et ld rd].
  simpl in *. destruct le as [c|]; [|done].
  do 14 (destruct buf as [|? buf]; [discriminate Hlen|]).
  destruct LOG; reflexivity.
Qed.

Lemma back_to_sleep_eq LOG s :
  back_to_sleep LOG s =
    match loraEvent s with
    | None => Fault
    | Some _ =>
        Done tt (set_loraEvent (Some false)
                   (set_led (if LOG then LOW else led s) (set_radio Sleeping s)))
          ([Ev.Radio_Sleep] ++ (if LOG then [Ev.digitalWrite LED_CONN LOW] else [])
           ++ [Ev.xSemaphoreTake sem_loraEvent 10])
    end.
Proof.
  destruct s as [re ct cto cfr buf rssi th le te et ld rd].
  destruct le, LOG; reflexivity.
Qed.

Lemma OnCadDone_free_eq LOG DBG now s :
  OnCadDone LOG DBG now false s =
    if 14 <=? Z.of_nat (length (TxdBuffer s)) then
      Done tt (set_radio Sending s)
        ((if DBG
          then [Ev.millis; Ev.myLog_d "CAD returned channel free after %ldms\n" [now - cadTime s]]
          else [])
         ++ [Ev.Radio_Send (take 14 (TxdBuffer s)) 14])
    else Fault.
Proof.
  destruct s as [re ct cto cfr buf rssi th le te et ld rd].
  destruct DBG;
    cbv [OnCadDone when mbind M_bind mret M_ret millis gets emit Radio_Send_TxdBuffer];
    cbn [TxdBuffer cadTime app]; change (0 <=? 14) with true; cbn [andb];
    destruct (14 <=? _); reflexivity.
Qed.

Lemma loraIntHandler_eq s :
  loraIntHandler s =
    match loraEvent s with
    | None => Done tt s []
    | Some _ => Done tt (set_loraEvent (Some true) s) [Ev.xSemaphoreGive sem_loraEvent]
    end.
Proof.
  destruct s as [re ct cto cfr buf rssi th le te et ld rd].
  destruct le; reflexivity.
Qed.

Lemma ready_booted DBG : ready (booted DBG).
Proof. destruct DBG; (split; [discriminate | reflexivity]). Qed.

Lemma Radio_IrqProcessAfterDeepSleep_eq LOG DBG pending now s :
  Radio_IrqProcessAfterDeepSleep LOG DBG pending now s =
    match pending with
    | None => Done tt s [Ev.Radio_IrqProcessAfterDeepSleep]
    | Some c =>
        if registered (entry_of c) (RadioEvents s) then
          match invoke LOG DBG now c s with
          | Done _ s' evs => Done tt s' (Ev.Radio_IrqProcessAfterDeepSleep :: evs)
          | Fault => Fault
          end
        else Done tt s [Ev.Radio_IrqProcessAfterDeepSleep]
    end.
Proof.
  cbv [Radio_IrqProcessAfterDeepSleep mbind M_bind mret M_ret emit gets when].
  destruct pending as [c|]; [|reflexivity].
  destruct (registered _ _); [|reflexivity].
  destruct (invoke LOG DBG now c s) as [[] s' evs|]; reflexivity.
Qed.

Lemma loraTask_iteration_eq LOG DBG pending now s :
  loraTask_iteration LOG DBG pending now s =
    match loraEvent s with
    | None => Fault
    | Some false => Done false s []
    | Some true =>
        match Radio_IrqProcessAfterDeepSleep LOG DBG pending now
                (set_led (if LOG then HIGH else led s) (set_loraEvent (Some false) s)) with
        | Done _ s' evs =>
            Done true s'
              ([Ev.xSemaphoreTake sem_loraEvent portMAX_DELAY]
               ++ (if LOG then [Ev.digitalWrite LED_CONN HIGH] else []) ++ evs)
        | Fault => Fault
        end
    end.
Proof.
  destruct s as [re ct cto cfr buf rssi th le te et ld rd].
  unfold loraTask_iteration. cbn [loraEvent].
  destruct le as [[|]|]; try reflexivity.
  cbv [mbind M_bind mret M_ret when xSemaphoreTake sem_get sem_set digitalWrite_LED_CONN].
  cbn [loraEvent set_loraEvent set_led RadioEvents cadTime channelTimeout channelFreeRetryNum
       TxdBuffer lastRSSI loraTaskHandle taskEvent eventType led radio].
  destruct LOG;
    cbv [loraEvent set_loraEvent set_led RadioEvents cadTime channelTimeout channelFreeRetryNum
         TxdBuffer lastRSSI loraTaskHandle taskEvent eventType led radio];
    match goal with |- context [Radio_IrqProcessAfterDeepSleep ?a ?b ?c ?d ?e] =>
      destruct (Radio_IrqProcessAfterDeepSleep a b c d e) as [[] s' evs|] end;
    cbn [app]; rewrite ?app_nil_r; reflexivity.
Qed.

Lemma rcvdData_loop_fits payload n idx index acc :
  idx + 3 * Z.of_nat n < 1024 → (index + n ≤ length payload)%nat → 0 <= idx ->
  is_Some (rcvdData_loop payload n idx index acc).
Proof.
  revert idx index acc. induction n as [|n IH]; intros idx index acc Hidx Hlen Hpos.
  - cbn. eauto.
  - cbn [rcvdData_loop].
    destruct (lookup_lt_is_Some_2 payload index) as [b Hb]; [lia|].
    rewrite Hb.
    destruct (Z.ltb_spec (idx + 3) 1024); [|lia].
    apply IH; lia.
Qed.

Lemma dump_fits_loop payload size rssi snr :
  dump_fits true (call_OnRxDone payload size rssi snr) = true →
  is_Some (rcvdData_loop payload (Z.to_nat size) 0 0 "").
Proof.
  cbn [dump_fits negb orb]. intros H.
  apply andb_true_iff in H as [H1 H2].
  apply Z.leb_le in H1. apply Z.leb_le in H2.
  apply rcvdData_loop_fits; lia.
Qed.

Lemma invoke_asleep LOG DBG now c s :
  loraEvent s ≠ None → c ≠ call_OnCadDone false → dump_fits LOG c = true →
  ∃ s' evs, invoke LOG DBG now c s = Done tt s' evs ∧
    s' = set_loraEvent (Some false) (set_led (if LOG then LOW else led s) (set_radio Sleeping
           match c with
           | call_OnRxDone _ _ _ _ =>
               set_taskEvent (match taskEvent s with Some _ => Some true | None => None end)
                 (set_eventType 0 s)
           | _ => s
           end)) ∧
    wakeups evs = 0%nat ∧ sends evs = [].
Proof.
  intros Hle Hc Hfit.
  destruct s as [re ct cto cfr buf rssi th le te et ld rd]. cbn [loraEvent] in Hle.
  destruct le as [cr|]; [clear Hle|done].
  destruct c as [| payload size rssi' snr | | | | [|]]; try done.
  1,3,4,5,6: destruct LOG, DBG; eexists _, _; (split; [reflexivity|]); repeat split; reflexivity.
  destruct LOG.
  - destruct (dump_fits_loop payload size rssi' snr Hfit) as [str Hstr].
    unfold invoke, OnRxDone, format_rcvdData. rewrite Hstr.
    destruct DBG, te; eexists _, _; (split; [reflexivity|]); repeat split; reflexivity.
  - destruct DBG, te; eexists _, _; (split; [reflexivity|]); repeat split; reflexivity.
Qed.

Lemma sendLoRa_ready LOG t1 t2 s s' evs :
  ready s → sendLoRa LOG t1 t2 s = Done tt s' evs →
  ready s' ∧ take 14 (TxdBuffer s') = OutgoingFrame ∧ RadioEvents s' = RadioEvents s.
Proof.
  intros H. rewrite (sendLoRa_done _ _ _ _ H). intros [= <- <-].
  destruct H as [_ Hlen]. cbn [TxdBuffer RadioEvents].
  split; [|split; reflexivity]. split; [done|]. cbn [TxdBuffer length].
  rewrite length_drop, Hlen. reflexivity.
Qed.

Lemma initLoRa_eq DBG created init_result task_result s :
  initLoRa DBG created init_result task_result s =
    if created then
      if init_result =? 1 then
        Done false (set_loraEvent (Some false) s) (initLoRa_prologue DBG)
      else
        let s1 := set_radio ConfiguringRx
                    (set_RadioEvents (mkRadioEvents true true true true true true)
                       (set_loraEvent (Some false) s)) in
        let s2 := if task_result =? pdPASS then set_loraTaskHandle true s1 else s1 in
        if task_result =? 0 then
          Done false s2 (initLoRa_prologue DBG ++ initLoRa_radio_setup DBG)
        else
          Done true (set_radio Sleeping s2)
            (initLoRa_prologue DBG ++ initLoRa_radio_setup DBG ++ [Ev.Radio_Sleep])
    else Fault.
Proof.
  destruct s as [re ct cto cfr buf rssi th le te et ld rd].
  destruct created; [|destruct DBG; reflexivity].
  destruct DBG; cbv -[Z.eqb];
    destruct (init_result =? 1); try reflexivity;
    destruct (task_result =? 0), (task_result =? 1); reflexivity.
Qed.

Lemma wakeups_app evs1 evs2 : wakeups (evs1 ++ evs2) = (wakeups evs1 + wakeups evs2)%nat.
Proof. unfold wakeups. rewrite List.filter_app, length_app. reflexivity. Qed.

Lemma run_cons LOG DBG o ops s :
  run LOG DBG (o :: ops) s =
    match exec LOG DBG o s with
    | Done _ s1 evs1 =>
        match run LOG DBG ops s1 with
        | Done y s2 evs2 => Done y s2 (evs1 ++ evs2)
        | Fault => Fault
        end
    | Fault => Fault
    end.
Proof. reflexivity. Qed.

Lemma run_app LOG DBG ops1 ops2 s :
  run LOG DBG (ops1 ++ ops2) s =
    match run LOG DBG ops1 s with
    | Done _ s1 evs1 =>
        match run LOG DBG ops2 s1 with
        | Done y s2 evs2 => Done y s2 (evs1 ++ evs2)
        | Fault => Fault
        end
    | Fault => Fault
    end.
Proof.
  revert s. induction ops1 as [|o ops1 IH]; intros s.
  - cbn. destruct (run LOG DBG ops2 s) as [[] ? ?|]; reflexivity.
  - cbn [app]. rewrite !run_cons.
    destruct (exec LOG DBG o s) as [[] s1 e1|]; [|reflexivity].
    rewrite IH. destruct (run LOG DBG ops1 s1) as [[] s2 e2|]; [|reflexivity].
    destruct (run LOG DBG ops2 s2) as [[] s3 e3|]; [|reflexivity].
    rewrite app_assoc. reflexivity.
Qed.

Lemma invoke_bridge LOG DBG now c s :
  ready s → dump_fits LOG c = true →
  ∃ s' evs, invoke LOG DBG now c s = Done tt s' evs ∧
    TxdBuffer s' = TxdBuffer s ∧
    (loraEvent s' = Some false ∨ loraEvent s' = loraEvent s) ∧
    wakeups evs = 0%nat.
Proof.
  intros [Hle Hlen] Hfit.
  assert (c = call_OnCadDone false ∨ c ≠ call_OnCadDone false) as [->|Hc]
    by (destruct c as [| | | | | []]; (by left) || (by right)).
  - cbn [invoke]. rewrite OnCadDone_free_eq.
    replace (14 <=? _) with true by (symmetry; apply Z.leb_le; lia).
    eexists _, _. split; [reflexivity|].
    destruct s, DBG; repeat split; try reflexivity; right; reflexivity.
  - destruct (invoke_asleep LOG DBG now c s Hle Hc Hfit) as (s' & evs & Hrun & -> & Hw & _).
    eexists _, evs. split; [exact Hrun|].
    destruct s, c; repeat split; try reflexivity; try exact Hw; left; reflexivity.
Qed.

Lemma loraTask_iteration_bridge LOG DBG pending now s :
  ready s → bridge_op LOG (op_loop pending now) = true →
  ∃ b s' evs, loraTask_iteration LOG DBG pending now s = Done b s' evs ∧
    ready s' ∧ loraEvent s' = Some false ∧ wakeups evs = credit s.
Proof.
  intros H Hok. rewrite loraTask_iteration_eq. unfold credit.
  destruct H as [Hle Hlen].
  destruct (loraEvent s) as [[|]|] eqn:E; [| |done].
  2:{ eexists _, _, _. split; [reflexivity|]. split; [split; [congruence|done]|]. done. }
  rewrite Radio_IrqProcessAfterDeepSleep_eq.
  set (s0 := set_led _ _).
  assert (ready s0 ∧ loraEvent s0 = Some false) as [H0 E0].
  { subst s0. destruct s. cbn in *. repeat split; done. }
  destruct pending as [c|].
  2:{ eexists _, _, _. split; [reflexivity|]. split; [exact H0|]. split; [exact E0|].
      destruct LOG; reflexivity. }
  destruct (registered _ _).
  2:{ eexists _, _, _. split; [reflexivity|]. split; [exact H0|]. split; [exact E0|].
      destruct LOG; reflexivity. }
  destruct (invoke_bridge LOG DBG now c s0 H0 Hok) as (s' & evs & -> & Hbuf & Hcr & Hw).
  eexists _, _, _. split; [reflexivity|].
  split; [|split].
  - destruct H0 as [_ Hl0]. split; [|congruence]. destruct Hcr as [->| ->]; [done|congruence].
  - destruct Hcr as [->| ->]; [done|exact E0].
  - rewrite wakeups_app. change (Ev.Radio_IrqProcessAfterDeepSleep :: evs)
      with ([Ev.Radio_IrqProcessAfterDeepSleep] ++ evs).
    rewrite !wakeups_app, Hw. destruct LOG; reflexivity.
Qed.

Lemma exec_bridge LOG DBG o s :
  ready s → bridge_op LOG o = true →
  ∃ s' evs, exec LOG DBG o s = Done tt s' evs ∧ ready s' ∧
    if is_edge o
    then loraEvent s' = Some true ∧ wakeups evs = 0%nat
    else loraEvent s' = Some false ∧ wakeups evs = credit s.
Proof.
  intros H Hok. destruct o as [|pending now| |]; try discriminate Hok.
  - cbn [exec is_edge]. rewrite loraIntHandler_eq. destruct H as [Hle Hlen].
    destruct (loraEvent s) eqn:E; [|done].
    eexists _, _. split; [reflexivity|]. destruct s; cbn in *. repeat split; done.
  - destruct (loraTask_iteration_bridge LOG DBG pending now s H Hok)
      as (b & s' & evs & Hrun & Hr & Hc & Hw).
    exists s', evs. cbn [exec is_edge]. split; [|done].
    cbv [mbind M_bind mret M_ret]. rewrite Hrun, app_nil_r. reflexivity.
Qed.

Lemma credit_le_1 s : (credit s ≤ 1)%nat.
Proof. unfold credit. destruct (loraEvent s) as [[|]|]; lia. Qed.

Lemma run_bridge LOG DBG ops s :
  ready s → forallb (bridge_op LOG) ops = true →
  ∃ s' evs, run LOG DBG ops s = Done tt s' evs ∧ ready s' ∧
    (wakeups evs + credit s' ≤ credit s + edges ops)%nat.
Proof.
  revert s. induction ops as [|o ops IH]; intros s H Hok.
  - exists s, []. split; [reflexivity|]. split; [exact H|]. cbn. lia.
  - cbn [forallb] in Hok. apply andb_true_iff in Hok as [Ho Hops].
    destruct (exec_bridge LOG DBG o s H Ho) as (s1 & e1 & Hx & H1 & Hpost).
    destruct (IH s1 H1 Hops) as (s2 & e2 & Hr & H2 & Hle).
    exists s2, (e1 ++ e2). rewrite run_cons, Hx, Hr. split; [reflexivity|]. split; [exact H2|].
    rewrite wakeups_app. unfold edges in *. cbn [List.filter].
    destruct (is_edge o); cbn [length].
    + destruct Hpost as [Hc Hw]. unfold credit in Hle at 2. rewrite Hc in Hle. lia.
    + destruct Hpost as [Hc Hw]. unfold credit in Hle at 2. rewrite Hc in Hle. lia.
Qed.

Lemma run_edges LOG DBG k s :
  ready s →
  ∃ evs, run LOG DBG (replicate (S k) op_edge) s = Done tt (set_loraEvent (Some true) s) evs ∧
    wakeups evs = 0%nat.
Proof.
  revert s. induction k as [|k IH]; intros s H.
  - cbn [replicate]. rewrite run_cons. cbn [exec run]. rewrite loraIntHandler_eq.
    destruct H as [Hle _]. destruct (loraEvent s); [|done].
    eexists. split; reflexivity.
  - change (replicate (S (S k)) op_edge) with (op_edge :: replicate (S k) op_edge).
    rewrite run_cons. cbn [exec]. rewrite loraIntHandler_eq.
    pose proof H as [Hle Hlen]. destruct (loraEvent s) eqn:E; [|done].
    destruct (IH (set_loraEvent (Some true) s)) as (evs & -> & Hw).
    { destruct s; split; cbn in *; done. }
    eexists. split; [destruct s; reflexivity|]. exact Hw.
Qed.

(** ** Computations that do not read the retry counter and the channel timeout *)

Lemma blind_ret {A} (x : A) : blind (mret x).
Proof. intros s1 s2 H. cbn. rewrite H. reflexivity. Qed.

Lemma observed_Done {A} (x1 x2 : A) a1 a2 e1 e2 :
  Done x1 (forget a1) e1 = Done x2 (forget a2) e2 → x1 = x2 ∧ forget a1 = forget a2 ∧ e1 = e2.
Proof. intros H. repeat split; congruence. Qed.

Lemma blind_bind {A B} (m : M A) (f : A → M B) :
  blind m → (∀ x, blind (f x)) → blind (m ≫= f).
Proof.
  intros Hm Hf s1 s2 H. specialize (Hm s1 s2 H).
  cbv [mbind M_bind].
  destruct (m s1) as [x1 a1 e1|], (m s2) as [x2 a2 e2|]; cbn [observe] in Hm;
    try discriminate; [|reflexivity].
  apply observed_Done in Hm as (-> & Ha & ->). specialize (Hf x2 a1 a2 Ha).
  destruct (f x2 a1) as [y1 b1 g1|], (f x2 a2) as [y2 b2 g2|]; cbn [observe] in Hf |- *;
    try discriminate; [|reflexivity].
  apply observed_Done in Hf as (-> & Hb & ->). rewrite Hb. reflexivity.
Qed.

Lemma blind_when b (m : M unit) : blind m → blind (when b m).
Proof. destruct b; [done|]. intros _. apply blind_ret. Qed.

Ltac blind_prim :=
  let H := fresh "H" in
  intros [re1 ct1 cto1 cfr1 buf1 rssi1 th1 le1 te1 et1 ld1 rd1]
         [re2 ct2 cto2 cfr2 buf2 rssi2 th2 le2 te2 et2 ld2 rd2] H;
  injection H as -> -> -> -> -> -> -> -> -> ->;
  cbv [observe forget emit gets xSemaphoreGive xSemaphoreTake create_loraEvent millis
       digitalWrite_LED_CONN xTaskCreate lora_rak4630_init driver_call store_cadTime
       store_channelTimeout store_eventType store_RadioEvents sem_get sem_set
       set_RadioEvents set_cadTime set_channelTimeout set_channelFreeRetryNum set_TxdBuffer
       set_loraTaskHandle set_loraEvent set_taskEvent set_eventType set_led set_radio
       RadioEvents cadTime channelTimeout channelFreeRetryNum TxdBuffer lastRSSI
       loraTaskHandle loraEvent taskEvent eventType led radio];
  repeat match goal with
         | |- context [match ?x with _ => _ end] => is_var x; destruct x
         end;
  reflexivity.

Lemma blind_emit e : blind (emit e).
Proof. blind_prim. Qed.
Lemma blind_gets_loraEvent : blind (gets loraEvent).
Proof. blind_prim. Qed.
Lemma blind_gets_taskEvent : blind (gets taskEvent).
Proof. blind_prim. Qed.
Lemma blind_gets_cadTime : blind (gets cadTime).
Proof. blind_prim. Qed.
Lemma blind_gets_RadioEvents : blind (gets RadioEvents).
Proof. blind_prim. Qed.
Lemma blind_xSemaphoreGive h : blind (xSemaphoreGive h).
Proof. destruct h; blind_prim. Qed.
Lemma blind_xSemaphoreTake h ticks : blind (xSemaphoreTake h ticks).
Proof. destruct h; blind_prim. Qed.
Lemma blind_create_loraEvent created : blind (create_loraEvent created).
Proof. blind_prim. Qed.
Lemma blind_millis now : blind (millis now).
Proof. blind_prim. Qed.
Lemma blind_digitalWrite_LED_CONN level : blind (digitalWrite_LED_CONN level).
Proof. blind_prim. Qed.
Lemma blind_xTaskCreate result name stackDepth prio : blind (xTaskCreate result name stackDepth prio).
Proof. unfold xTaskCreate. destruct (result =? pdPASS); blind_prim. Qed.
Lemma blind_lora_rak4630_init result : blind (lora_rak4630_init result).
Proof. blind_prim. Qed.
Lemma blind_driver_call e mode : blind (driver_call e mode).
Proof. blind_prim. Qed.
Lemma blind_Radio_Send_TxdBuffer size : blind (Radio_Send_TxdBuffer size).
Proof.
  intros [re1 ct1 cto1 cfr1 buf1 rssi1 th1 le1 te1 et1 ld1 rd1]
         [re2 ct2 cto2 cfr2 buf2 rssi2 th2 le2 te2 et2 ld2 rd2] H.
  injection H as -> -> -> -> -> -> -> -> -> ->.
  unfold Radio_Send_TxdBuffer. cbn [TxdBuffer].
  destruct (_ && _); reflexivity.
Qed.
Lemma blind_store_TxdBuffer index v : blind (store_TxdBuffer index v).
Proof.
  intros [re1 ct1 cto1 cfr1 buf1 rssi1 th1 le1 te1 et1 ld1 rd1]
         [re2 ct2 cto2 cfr2 buf2 rssi2 th2 le2 te2 et2 ld2 rd2] H.
  injection H as -> -> -> -> -> -> -> -> -> ->.
  unfold store_TxdBuffer. cbn [TxdBuffer].
  destruct (_ <? _)%nat; reflexivity.
Qed.
Lemma blind_store_cadTime v : blind (store_cadTime v).
Proof. blind_prim. Qed.
Lemma blind_store_channelTimeout v : blind (store_channelTimeout v).
Proof. blind_prim. Qed.
Lemma blind_store_eventType v : blind (store_eventType v).
Proof. blind_prim. Qed.
Lemma blind_store_RadioEvents entry : blind (store_RadioEvents entry).
Proof. blind_prim. Qed.
Lemma blind_format_rcvdData payload size : blind (format_rcvdData payload size).
Proof.
  intros s1 s2 H. unfold format_rcvdData.
  destruct (rcvdData_loop _ _ _ _ _); cbn; [rewrite H|]; reflexivity.
Qed.

Create HintDb blind.
#[local] Hint Resolve blind_ret blind_when blind_emit blind_gets_loraEvent blind_gets_taskEvent
  blind_gets_cadTime blind_gets_RadioEvents blind_xSemaphoreGive blind_xSemaphoreTake
  blind_create_loraEvent blind_millis blind_digitalWrite_LED_CONN blind_xTaskCreate
  blind_lora_rak4630_init blind_driver_call blind_Radio_Send_TxdBuffer blind_store_TxdBuffer
  blind_store_cadTime blind_store_channelTimeout blind_store_eventType blind_store_RadioEvents
  blind_format_rcvdData : blind.

Ltac blind_steps :=
  repeat first
    [ solve [eauto with blind]
    | apply blind_bind; [|intros ?]
    | apply blind_when
    | match goal with |- blind (if ?b then _ else _) => destruct b end ].

Lemma blind_myLog_d DBG format args : blind (myLog_d DBG format args).
Proof. unfold myLog_d. blind_steps. Qed.
#[local] Hint Resolve blind_myLog_d : blind.

Lemma blind_loraIntHandler : blind loraIntHandler.
Proof. unfold loraIntHandler. blind_steps. Qed.

Lemma blind_initLoRa DBG created init_result task_result :
  blind (initLoRa DBG created init_result task_result).
Proof.
  unfold initLoRa, delay, attachInterrupt, Radio_Init, Radio_Sleep, Radio_SetChannel,
    Radio_SetTxConfig, Radio_SetRxConfig.
  blind_steps.
Qed.

Lemma blind_sendLoRa LOG t1 t2 : blind (sendLoRa LOG t1 t2).
Proof. unfold sendLoRa, Radio_Sleep, Radio_SetCadParams, Radio_StartCad. blind_steps. Qed.

Lemma blind_back_to_sleep LOG : blind (back_to_sleep LOG).
Proof. unfold back_to_sleep, Radio_Sleep. blind_steps. Qed.
#[local] Hint Resolve blind_back_to_sleep : blind.

Lemma blind_invoke LOG DBG now c : blind (invoke LOG DBG now c).
Proof.
  destruct c; cbn [invoke];
    unfold OnTxDone, OnRxDone, OnTxTimeout, OnRxTimeout, OnRxError, OnCadDone, delay;
    blind_steps.
Qed.
#[local] Hint Resolve blind_invoke : blind.

Lemma blind_Radio_IrqProcessAfterDeepSleep LOG DBG pending now :
  blind (Radio_IrqProcessAfterDeepSleep LOG DBG pending now).
Proof. unfold Radio_IrqProcessAfterDeepSleep. destruct pending; blind_steps. Qed.
#[local] Hint Resolve blind_Radio_IrqProcessAfterDeepSleep : blind.

Lemma forget_loraEvent s1 s2 : forget s1 = forget s2 → loraEvent s1 = loraEvent s2.
Proof. intros H. apply (f_equal loraEvent) in H. exact H. Qed.

Lemma blind_loraTask_iteration LOG DBG pending now :
  blind (loraTask_iteration LOG DBG pending now).
Proof.
  intros s1 s2 H. unfold loraTask_iteration. rewrite <- (forget_loraEvent _ _ H).
  destruct (loraEvent s1) as [[|]|]; [|cbn; rewrite H; reflexivity|reflexivity].
  revert s1 s2 H.
  change (blind (xSemaphoreTake sem_loraEvent portMAX_DELAY ;;
                 when LOG (digitalWrite_LED_CONN HIGH) ;;
                 Radio_IrqProcessAfterDeepSleep LOG DBG pending now ;; mret true)).
  blind_steps.
Qed.
#[local] Hint Resolve blind_loraTask_iteration blind_loraIntHandler blind_sendLoRa : blind.

Lemma blind_exec LOG DBG o : blind (exec LOG DBG o).
Proof. destruct o; cbn [exec]; blind_steps. Qed.

Lemma blind_run LOG DBG ops : blind (run LOG DBG ops).
Proof.
  induction ops as [|o ops IH]; cbn [run]; [apply blind_ret|].
  apply blind_bind; [apply blind_exec|intros _; exact IH].
Qed.

Lemma forget_set s x y :
  forget (set_channelFreeRetryNum x (set_channelTimeout y s)) = forget s.
Proof. destruct s; reflexivity. Qed.


(** ** The CAD-gated transmission *)

(** C1. In a cycle started by [sendLoRa], [OnCadDone] called with the
    channel free makes exactly one call of [Radio.Send], with the first 14
    bytes of the buffer as [sendLoRa] left them (the frame it built) and the
    length 14; called with the channel busy it makes none.  [sendLoRa] itself
    never sends. *)
Theorem sendLoRa_then_OnCadDone_sends LOG DBG t1 t2 now cadResult s :
  ready s →
  ∃ s1 evs1 s2 evs2,
    sendLoRa LOG t1 t2 s = Done tt s1 evs1 ∧
    OnCadDone LOG DBG now cadResult s1 = Done tt s2 evs2 ∧
    take 14 (TxdBuffer s1) = OutgoingFrame ∧
    sends (evs1 ++ evs2) =
      (if cadResult then [] else [Ev.Radio_Send (take 14 (TxdBuffer s1)) 14]).
Proof.
  intros H. pose proof (sendLoRa_done LOG t1 t2 s H) as Hs.
  destruct H as [_ Hlen].
  destruct cadResult; eexists _, _, _, _; (split; [exact Hs|]).
  - change (OnCadDone LOG DBG now true) with (back_to_sleep LOG).
    rewrite back_to_sleep_eq. cbn [loraEvent].
    split; [reflexivity|]. split; [reflexivity|]. destruct LOG; reflexivity.
  - rewrite OnCadDone_free_eq. cbn [TxdBuffer cadTime].
    replace (14 <=? _) with true.
    2:{ symmetry. apply Z.leb_le. rewrite length_app, length_drop, Hlen. cbn. lia. }
    split; [reflexivity|]. split; [reflexivity|]. destruct LOG, DBG; reflexivity.
Qed.

Lemma sendLoRa_then_OnCadDone_sends_witness :
  ready (booted true) ∧
  ∃ s1 evs1 s2 evs2,
    sendLoRa true 100 101 (booted true) = Done tt s1 evs1 ∧
    OnCadDone true true 110 false s1 = Done tt s2 evs2 ∧
    take 14 (TxdBuffer s1) = OutgoingFrame ∧
    sends (evs1 ++ evs2) = [Ev.Radio_Send (take 14 (TxdBuffer s1)) 14].
Proof.
  assert (H : ready (booted true)) by (split; [discriminate | reflexivity]).
  split; [exact H|].
  exact (sendLoRa_then_OnCadDone_sends true true 100 101 110 false (booted true) H).
Defined.

(** C3. The two scenarios of a cycle, through the interrupt bridge and the
    event task: [sendLoRa] starts CAD, the radio raises its interrupt, the
    task wakes and the driver delivers [OnCadDone].  With the channel free
    the cycle makes exactly one call of [Radio.Send], of a 14-byte buffer
    whose first byte is the device identifier 7; with the channel busy it
    makes none and the radio ends asleep. *)
Theorem cycle_scenarios LOG DBG t1 t2 now cadResult s :
  ready s → CadDone (RadioEvents s) = true →
  ∃ s1 evs1 s2 evs2 s3 evs3,
    sendLoRa LOG t1 t2 s = Done tt s1 evs1 ∧ radio s1 = Cad ∧
    loraIntHandler s1 = Done tt s2 evs2 ∧
    loraTask_iteration LOG DBG (Some (call_OnCadDone cadResult)) now s2 = Done true s3 evs3 ∧
    if cadResult
    then sends (evs1 ++ evs2 ++ evs3) = [] ∧ radio s3 = Sleeping
    else ∃ buffer, sends (evs1 ++ evs2 ++ evs3) = [Ev.Radio_Send buffer 14] ∧
                   length buffer = 14%nat ∧ buffer !! 0%nat = Some 7.
Proof.
  intros H Hreg. pose proof (sendLoRa_done LOG t1 t2 s H) as Hs.
  destruct H as [_ Hlen].
  destruct s as [re ct cto cfr buf rssi th le te et ld rd].
  cbn [RadioEvents TxdBuffer lastRSSI loraTaskHandle taskEvent eventType led channelFreeRetryNum] in *.
  destruct cadResult; eexists _, _, _, _, _, _; (split; [exact Hs|]); (split; [reflexivity|]);
    (split; [reflexivity|]);
    rewrite loraTask_iteration_eq, Radio_IrqProcessAfterDeepSleep_eq;
    cbv [sem_set sem_get set_loraEvent set_led loraEvent RadioEvents cadTime channelTimeout channelFreeRetryNum
         TxdBuffer lastRSSI loraTaskHandle taskEvent eventType led radio entry_of registered];
    rewrite Hreg.
  - change (invoke LOG DBG now (call_OnCadDone true)) with (back_to_sleep LOG).
    rewrite back_to_sleep_eq. cbn [loraEvent].
    split; [reflexivity|]. destruct LOG; split; reflexivity.
  - cbn [invoke]. rewrite OnCadDone_free_eq. cbn [TxdBuffer cadTime].
    replace (14 <=? _) with true.
    2:{ symmetry. apply Z.leb_le. rewrite length_app, length_drop, Hlen. cbn. lia. }
    split; [reflexivity|]. eexists. split; [destruct LOG, DBG; reflexivity|].
    split; reflexivity.
Qed.

Lemma cycle_scenarios_witness :
  ready (booted false) ∧ CadDone (RadioEvents (booted false)) = true ∧
  ∃ s1 evs1 s2 evs2 s3 evs3,
    sendLoRa false 100 101 (booted false) = Done tt s1 evs1 ∧ radio s1 = Cad ∧
    loraIntHandler s1 = Done tt s2 evs2 ∧
    loraTask_iteration false false (Some (call_OnCadDone true)) 110 s2 = Done true s3 evs3 ∧
    sends (evs1 ++ evs2 ++ evs3) = [] ∧ radio s3 = Sleeping.
Proof.
  assert (H1 : ready (booted false)) by (split; [discriminate | reflexivity]).
  assert (H2 : CadDone (RadioEvents (booted false)) = true) by reflexivity.
  split; [exact H1|]. split; [exact H2|].
  exact (cycle_scenarios false false 100 101 110 true (booted false) H1 H2).
Defined.

(** ** The state the callbacks leave *)

(** C2, as amended.  [OnTxDone], [OnRxDone], [OnTxTimeout], [OnRxTimeout],
    [OnRxError] and [OnCadDone] called with the channel busy return with the
    radio asleep, the indicator switched off where indicator signalling is
    compiled in (it is left alone otherwise) and no wake credit left.
    [OnCadDone] called with the channel free instead hands the frame to
    [Radio.Send]: the radio is sending, and the indicator and the wake credit
    are as they were. *)
Theorem callbacks_end_asleep LOG DBG now c s :
  ready s → dump_fits LOG c = true →
  ∃ s' evs, invoke LOG DBG now c s = Done tt s' evs ∧
    match c with
    | call_OnCadDone false =>
        radio s' = Sending ∧ led s' = led s ∧ loraEvent s' = loraEvent s ∧
        sends evs = [Ev.Radio_Send (take 14 (TxdBuffer s)) 14]
    | _ => asleep_and_cleared LOG s s'
    end.
Proof.
  intros [Hle Hlen] Hfit.
  assert (c = call_OnCadDone false ∨ c ≠ call_OnCadDone false) as [->|Hc]
    by (destruct c as [| | | | | []]; (by left) || (by right)).
  - cbn [invoke]. rewrite OnCadDone_free_eq.
    replace (14 <=? _) with true by (symmetry; apply Z.leb_le; lia).
    eexists _, _. split; [reflexivity|].
    destruct s, DBG; repeat split; reflexivity.
  - destruct (invoke_asleep LOG DBG now c s Hle Hc Hfit) as (s' & evs & Hrun & -> & _ & _).
    eexists _, evs. split; [exact Hrun|].
    assert (asleep_and_cleared LOG s
              (set_loraEvent (Some false) (set_led (if LOG then LOW else led s) (set_radio Sleeping
                 match c with
                 | call_OnRxDone _ _ _ _ =>
                     set_taskEvent (match taskEvent s with Some _ => Some true | None => None end)
                       (set_eventType 0 s)
                 | _ => s
                 end)))) as Hpost.
    { destruct s, c; repeat split; reflexivity. }
    destruct c as [| | | | | []]; try exact Hpost. done.
Qed.

Lemma callbacks_end_asleep_witness :
  ready (booted true) ∧ dump_fits true (call_OnRxDone [1; 2; 3] 3 (-80) 5) = true ∧
  ∃ s' evs, invoke true true 0 (call_OnRxDone [1; 2; 3] 3 (-80) 5) (booted true) = Done tt s' evs ∧
    asleep_and_cleared true (booted true) s'.
Proof.
  assert (H1 : ready (booted true)) by (split; [discriminate | reflexivity]).
  assert (H2 : dump_fits true (call_OnRxDone [1; 2; 3] 3 (-80) 5) = true) by reflexivity.
  split; [exact H1|]. split; [exact H2|].
  exact (callbacks_end_asleep true true 0 (call_OnRxDone [1; 2; 3] 3 (-80) 5) (booted true) H1 H2).
Defined.


(** C2 counterexample: after [sendLoRa] and an interrupt edge, [OnCadDone]
    called with the channel free returns with the radio sending, the
    indicator on and the wake credit still there. *)
Lemma OnCadDone_free_does_not_end_asleep :
  let s1 := after (run true true [op_sendLoRa 100 101; op_edge] (booted true)) in
  let o := OnCadDone true true 110 false s1 in
  ready s1 ∧ completes o = true ∧
  radio (after o) = Sending ∧ led (after o) = HIGH ∧ loraEvent (after o) = Some true ∧
  ¬ asleep_cleared_consumed (after o).
Proof.
  vm_compute. repeat split; try discriminate. intros (H & _). discriminate H.
Qed.

(** ** The interrupt bridge *)

(** C4. [loraIntHandler] does nothing at all while [loraEvent] is null (it
    completes, the state is unchanged, nothing is called); otherwise its
    only effect is the credit it posts on [loraEvent] with one call of
    [xSemaphoreGive], which never waits.  It makes no blocking call, no
    logging call and no call into the radio driver. *)
Theorem loraIntHandler_only_posts_credit s :
  loraIntHandler s =
    match loraEvent s with
    | None => Done tt s []
    | Some _ => Done tt (set_loraEvent (Some true) s) [Ev.xSemaphoreGive sem_loraEvent]
    end
  ∧ Forall (λ e, Ev.is_blocking e = false ∧ Ev.is_logging e = false ∧ Ev.is_driver_call e = false)
      (events (loraIntHandler s)).
Proof.
  split; [apply loraIntHandler_eq|].
  rewrite loraIntHandler_eq. destruct (loraEvent s); cbn [events].
  - constructor; [repeat split; reflexivity | constructor].
  - constructor.
Qed.


(** ** The transmit sequencer *)

(** C5 counterexample: the driver calls [sendLoRa] makes are not the three
    the specification lists; there is no call of [Radio.Standby] at all (the
    source calls [Radio.Sleep], the standby call is commented out). *)
Lemma sendLoRa_calls_sleep_not_standby :
  let o := sendLoRa false 100 101 (booted false) in
  completes o = true ∧
  List.filter Ev.is_driver_call (events o) ≠ standby_cad_calls ∧
  ¬ In Ev.Radio_Standby (events o).
Proof.
  vm_compute. split; [reflexivity|]. split; [discriminate|].
  intros H. repeat (destruct H as [H|H]; [discriminate H|]). exact H.
Qed.


(** C5, as amended.  Every call of [sendLoRa] performs, in this order: the
    stores of all 14 bytes of the frame; [Radio.Sleep] (not standby);
    [Radio.SetCadParams] with 8 symbols, the peak threshold
    [LORA_SPREADING_FACTOR + 13], the minimum 10 and the CAD-only exit mode;
    the reading of the clock stored in [cadTime] (and the one stored in
    [channelTimeout]); the indicator, where compiled in; [Radio.StartCad].
    It then takes [loraEvent] with a wait of at most 10 ticks and returns,
    the radio in CAD, no callback having run. *)
Theorem sendLoRa_sequence LOG t1 t2 s :
  ready s →
  ∃ s',
    sendLoRa LOG t1 t2 s =
      Done tt s'
        ([Ev.Store_TxdBuffer 0 7; Ev.Store_TxdBuffer 1 0; Ev.Store_TxdBuffer 2 0;
          Ev.Store_TxdBuffer 3 27; Ev.Store_TxdBuffer 4 35; Ev.Store_TxdBuffer 5 67;
          Ev.Store_TxdBuffer 6 55; Ev.Store_TxdBuffer 7 34; Ev.Store_TxdBuffer 8 12;
          Ev.Store_TxdBuffer 9 75; Ev.Store_TxdBuffer 10 0; Ev.Store_TxdBuffer 11 (to_uint8 (-80));
          Ev.Store_TxdBuffer 12 0; Ev.Store_TxdBuffer 13 0]
         ++ [Ev.Radio_Sleep]
         ++ [Ev.Radio_SetCadParams LORA_CAD_08_SYMBOL (LORA_SPREADING_FACTOR + 13) 10 LORA_CAD_ONLY 0]
         ++ [Ev.millis; Ev.Store_cadTime t1; Ev.millis; Ev.Store_channelTimeout t2]
         ++ (if LOG then [Ev.digitalWrite LED_CONN HIGH] else [])
         ++ [Ev.Radio_StartCad]
         ++ [Ev.xSemaphoreTake sem_loraEvent 10]) ∧
    cadTime s' = t1 ∧ radio s' = Cad ∧ loraEvent s' = Some false.
Proof.
  intros H. rewrite (sendLoRa_done _ _ _ _ H). eexists. split; [reflexivity|].
  repeat split.
Qed.

Lemma sendLoRa_sequence_witness :
  ready (booted false) ∧
  ∃ s',
    sendLoRa false 100 101 (booted false) =
      Done tt s'
        ([Ev.Store_TxdBuffer 0 7; Ev.Store_TxdBuffer 1 0; Ev.Store_TxdBuffer 2 0;
          Ev.Store_TxdBuffer 3 27; Ev.Store_TxdBuffer 4 35; Ev.Store_TxdBuffer 5 67;
          Ev.Store_TxdBuffer 6 55; Ev.Store_TxdBuffer 7 34; Ev.Store_TxdBuffer 8 12;
          Ev.Store_TxdBuffer 9 75; Ev.Store_TxdBuffer 10 0; Ev.Store_TxdBuffer 11 (to_uint8 (-80));
          Ev.Store_TxdBuffer 12 0; Ev.Store_TxdBuffer 13 0]
         ++ [Ev.Radio_Sleep]
         ++ [Ev.Radio_SetCadParams LORA_CAD_08_SYMBOL (LORA_SPREADING_FACTOR + 13) 10 LORA_CAD_ONLY 0]
         ++ [Ev.millis; Ev.Store_cadTime 100; Ev.millis; Ev.Store_channelTimeout 101]
         ++ []
         ++ [Ev.Radio_StartCad]
         ++ [Ev.xSemaphoreTake sem_loraEvent 10]) ∧
    cadTime s' = 100 ∧ radio s' = Cad ∧ loraEvent s' = Some false.
Proof.
  assert (H : ready (booted false)) by (split; [discriminate | reflexivity]).
  split; [exact H|].
  exact (sendLoRa_sequence false 100 101 (booted false) H).
Defined.


(** C6. Whatever the transmit buffer held, after [sendLoRa] each of its
    first 14 bytes is the value that call stored there, and the 14 bytes are
    the frame; this holds again for a second call, on the state the first one
    left. *)
Theorem sendLoRa_overwrites_frame LOG t1 t2 t1' t2' s :
  ready s →
  ∃ s1 evs1 s2 evs2,
    sendLoRa LOG t1 t2 s = Done tt s1 evs1 ∧
    sendLoRa LOG t1' t2' s1 = Done tt s2 evs2 ∧
    take 14 (TxdBuffer s1) = OutgoingFrame ∧
    take 14 (TxdBuffer s2) = OutgoingFrame ∧
    (∀ i, (i < 14)%nat →
       ∃ v, In (Ev.Store_TxdBuffer i v) evs1 ∧ TxdBuffer s1 !! i = Some v) ∧
    (∀ i, (i < 14)%nat →
       ∃ v, In (Ev.Store_TxdBuffer i v) evs2 ∧ TxdBuffer s2 !! i = Some v).
Proof.
  intros H.
  destruct (sendLoRa_ready LOG t1 t2 s _ _ H (sendLoRa_done LOG t1 t2 s H)) as (H1 & _ & _).
  pose proof (sendLoRa_done LOG t1 t2 s H) as Hs1.
  pose proof (sendLoRa_done LOG t1' t2' _ H1) as Hs2.
  eexists _, _, _, _. split; [exact Hs1|]. split; [exact Hs2|].
  split; [reflexivity|]. split; [reflexivity|].
  split; intros i Hi; cbn [TxdBuffer];
    do 14 (destruct i as [|i]; [eexists; split; [|reflexivity]; cbn; tauto|]); lia.
Qed.

Lemma sendLoRa_overwrites_frame_witness :
  let s := set_TxdBuffer (replicate 256 255) (booted false) in
  ready s ∧
  ∃ s1 evs1 s2 evs2,
    sendLoRa false 100 101 s = Done tt s1 evs1 ∧
    sendLoRa false 200 201 s1 = Done tt s2 evs2 ∧
    take 14 (TxdBuffer s1) = OutgoingFrame ∧
    take 14 (TxdBuffer s2) = OutgoingFrame ∧
    (∀ i, (i < 14)%nat →
       ∃ v, In (Ev.Store_TxdBuffer i v) evs1 ∧ TxdBuffer s1 !! i = Some v) ∧
    (∀ i, (i < 14)%nat →
       ∃ v, In (Ev.Store_TxdBuffer i v) evs2 ∧ TxdBuffer s2 !! i = Some v).
Proof.
  assert (H : ready (set_TxdBuffer (replicate 256 255) (booted false)))
    by (split; [discriminate | reflexivity]).
  split; [exact H|].
  exact (sendLoRa_overwrites_frame false 100 101 200 201 _ H).
Defined.


(** C10. The store of -80 into byte 11 of the frame keeps 176 (-80 modulo
    256): that is the byte in the buffer after [sendLoRa], and the byte at
    index 11 of the buffer [OnCadDone] hands to [Radio.Send]. *)
Theorem signal_strength_byte_is_176 LOG DBG t1 t2 now s :
  ready s →
  to_uint8 (-80) = 176 ∧
  ∃ s1 evs1 s2 evs2 buffer,
    sendLoRa LOG t1 t2 s = Done tt s1 evs1 ∧
    In (Ev.Store_TxdBuffer 11 (to_uint8 (-80))) evs1 ∧
    TxdBuffer s1 !! 11%nat = Some 176 ∧
    OnCadDone LOG DBG now false s1 = Done tt s2 evs2 ∧
    sends evs2 = [Ev.Radio_Send buffer 14] ∧
    buffer !! 11%nat = Some 176.
Proof.
  intros H. split; [reflexivity|].
  pose proof (sendLoRa_done LOG t1 t2 s H) as Hs.
  destruct H as [_ Hlen].
  eexists _, _, _, _, _. split; [exact Hs|].
  split; [destruct LOG; cbn; tauto|]. split; [reflexivity|].
  rewrite OnCadDone_free_eq. cbn [TxdBuffer cadTime].
  replace (14 <=? _) with true.
  2:{ symmetry. apply Z.leb_le. rewrite length_app, length_drop, Hlen. cbn. lia. }
  split; [reflexivity|]. split; [destruct DBG; reflexivity|]. reflexivity.
Qed.

Lemma signal_strength_byte_is_176_witness :
  ready (booted true) ∧ to_uint8 (-80) = 176 ∧
  ∃ s1 evs1 s2 evs2 buffer,
    sendLoRa true 100 101 (booted true) = Done tt s1 evs1 ∧
    In (Ev.Store_TxdBuffer 11 (to_uint8 (-80))) evs1 ∧
    TxdBuffer s1 !! 11%nat = Some 176 ∧
    OnCadDone true false 110 false s1 = Done tt s2 evs2 ∧
    sends evs2 = [Ev.Radio_Send buffer 14] ∧
    buffer !! 11%nat = Some 176.
Proof.
  assert (H : ready (booted true)) by (split; [discriminate | reflexivity]).
  split; [exact H|].
  exact (signal_strength_byte_is_176 true false 100 101 110 (booted true) H).
Defined.


(** ** Initialisation *)

(** C7. When [xTaskCreate] fails the way FreeRTOS reports it, with
    [errCOULD_NOT_ALLOCATE_REQUIRED_MEMORY] (-1), the test
    [!xTaskCreate(...)] does not fire: [initLoRa] goes on, puts the radio to
    sleep and returns [true], although no task exists. *)
Theorem initLoRa_reports_success_without_task DBG s :
  ∃ s' evs,
    initLoRa DBG true 0 errCOULD_NOT_ALLOCATE_REQUIRED_MEMORY s = Done true s' evs ∧
    loraTaskHandle s' = loraTaskHandle s ∧
    radio s' = Sleeping.
Proof.
  rewrite initLoRa_eq. eexists _, _. split; [reflexivity|].
  destruct s; split; reflexivity.
Qed.

(** ** Interrupt edges and wake-ups *)

(** C8. From a state with no wake credit (the event task suspended in its
    take), along any schedule of interrupt edges and iterations of the
    task's loop: the task wakes and calls [Radio.IrqProcessAfterDeepSleep] at
    most as many times as there were edges.  One edge or more while the task
    is idle leave one credit: the next iteration of the loop wakes, the one
    after it does not, so the edges together produce exactly one wake-up. *)
Theorem wakeups_at_most_edges LOG DBG ops k pending1 now1 pending2 now2 s :
  ready s → loraEvent s = Some false →
  forallb (bridge_op LOG) ops = true →
  bridge_op LOG (op_loop pending1 now1) = true →
  bridge_op LOG (op_loop pending2 now2) = true →
  (∃ s' evs, run LOG DBG ops s = Done tt s' evs ∧ (wakeups evs ≤ edges ops)%nat) ∧
  (∃ s' evs,
     run LOG DBG (replicate (S k) op_edge ++ [op_loop pending1 now1; op_loop pending2 now2]) s
       = Done tt s' evs ∧
     wakeups evs = 1%nat) ∧
  (∃ s1 evs1 s2 evs2 s3 evs3,
     run LOG DBG (replicate (S k) op_edge) s = Done tt s1 evs1 ∧ loraEvent s1 = Some true ∧
     loraTask_iteration LOG DBG pending1 now1 s1 = Done true s2 evs2 ∧
     loraTask_iteration LOG DBG pending2 now2 s2 = Done false s3 evs3).
Proof.
  intros H Hidle Hops H1 H2.
  assert (Hs1 : ready (set_loraEvent (Some true) s) ∧ credit (set_loraEvent (Some true) s) = 1%nat
                ∧ loraEvent (set_loraEvent (Some true) s) = Some true).
  { destruct H. destruct s; cbn in *. repeat split; done. }
  destruct Hs1 as (Hr1 & Hc1 & He1).
  destruct (run_edges LOG DBG k s H) as (evs1 & Hrun1 & Hw1).
  destruct (loraTask_iteration_bridge LOG DBG pending1 now1 _ Hr1 H1)
    as (b2 & s2 & evs2 & Hrun2 & Hr2 & He2 & Hw2).
  destruct (loraTask_iteration_bridge LOG DBG pending2 now2 _ Hr2 H2)
    as (b3 & s3 & evs3 & Hrun3 & Hr3 & He3 & Hw3).
  assert (b2 = true ∧ b3 = false) as [-> ->].
  { rewrite loraTask_iteration_eq in Hrun2, Hrun3. rewrite He1 in Hrun2. rewrite He2 in Hrun3.
    split; [|congruence].
    destruct (Radio_IrqProcessAfterDeepSleep _ _ _ _ _); congruence. }
  split; [|split].
  - destruct (run_bridge LOG DBG ops s H Hops) as (s' & evs & Hrun & _ & Hle).
    exists s', evs. split; [exact Hrun|]. unfold credit in Hle at 2. rewrite Hidle in Hle. lia.
  - eexists _, _. rewrite run_app, Hrun1, !run_cons. cbn [exec run].
    cbv [mbind M_bind mret M_ret]. rewrite Hrun2, Hrun3. split; [reflexivity|].
    rewrite !wakeups_app, Hw1, Hw2, Hw3, Hc1. unfold credit. rewrite He2. reflexivity.
  - eexists _, _, _, _, _, _. split; [exact Hrun1|]. split; [exact He1|].
    split; [exact Hrun2|exact Hrun3].
Qed.

Lemma wakeups_at_most_edges_witness :
  let ops := [op_edge; op_edge; op_loop (Some (call_OnCadDone true)) 5; op_loop None 6;
              op_edge; op_loop (Some call_OnTxDone) 7] in
  ready (booted true) ∧ loraEvent (booted true) = Some false ∧
  forallb (bridge_op true) ops = true ∧
  bridge_op true (op_loop (Some (call_OnCadDone false)) 8) = true ∧
  bridge_op true (op_loop (Some (call_OnRxDone [1; 2] 2 (-70) 9)) 9) = true ∧
  (∃ s' evs, run true true ops (booted true) = Done tt s' evs ∧ (wakeups evs ≤ edges ops)%nat) ∧
  (∃ s' evs,
     run true true (replicate 3 op_edge ++
                    [op_loop (Some (call_OnCadDone false)) 8;
                     op_loop (Some (call_OnRxDone [1; 2] 2 (-70) 9)) 9]) (booted true)
       = Done tt s' evs ∧
     wakeups evs = 1%nat) ∧
  (∃ s1 evs1 s2 evs2 s3 evs3,
     run true true (replicate 3 op_edge) (booted true) = Done tt s1 evs1 ∧
     loraEvent s1 = Some true ∧
     loraTask_iteration true true (Some (call_OnCadDone false)) 8 s1 = Done true s2 evs2 ∧
     loraTask_iteration true true (Some (call_OnRxDone [1; 2] 2 (-70) 9)) 9 s2
       = Done false s3 evs3).
Proof.
  intros ops.
  assert (H1 : ready (booted true)) by (split; [discriminate | reflexivity]).
  assert (H2 : loraEvent (booted true) = Some false) by reflexivity.
  assert (H3 : forallb (bridge_op true) ops = true) by reflexivity.
  assert (H4 : bridge_op true (op_loop (Some (call_OnCadDone false)) 8) = true) by reflexivity.
  assert (H5 : bridge_op true (op_loop (Some (call_OnRxDone [1; 2] 2 (-70) 9)) 9) = true)
    by reflexivity.
  split; [exact H1|]. split; [exact H2|]. split; [exact H3|]. split; [exact H4|].
  split; [exact H5|].
  exact (wakeups_at_most_edges true true ops 2 _ 8 _ 9 (booted true) H1 H2 H3 H4 H5).
Defined.

(** ** The retry counter and the channel timeout *)

(** C9. The values of [channelFreeRetryNum] and [channelTimeout] influence
    nothing: along any schedule of interrupt edges, loop iterations, calls of
    [sendLoRa] and callbacks, and in [initLoRa], changing the two values in
    the starting state changes neither whether the run completes, nor its
    calls and stores, nor any other part of the final state.  On channel busy
    [OnCadDone] puts the radio to sleep and returns: it makes no call of
    [Radio.Send] or [Radio.StartCad] and waits for nothing but the bounded
    take. *)
Theorem retry_counter_and_timeout_never_read LOG DBG :
  (∀ ops s x y,
     observe (run LOG DBG ops (set_channelFreeRetryNum x (set_channelTimeout y s)))
     = observe (run LOG DBG ops s)) ∧
  (∀ created init_result task_result s x y,
     observe (initLoRa DBG created init_result task_result
                (set_channelFreeRetryNum x (set_channelTimeout y s)))
     = observe (initLoRa DBG created init_result task_result s)) ∧
  (∀ now s,
     OnCadDone LOG DBG now true s =
       match loraEvent s with
       | None => Fault
       | Some _ =>
           Done tt (set_loraEvent (Some false)
                      (set_led (if LOG then LOW else led s) (set_radio Sleeping s)))
             ([Ev.Radio_Sleep] ++ (if LOG then [Ev.digitalWrite LED_CONN LOW] else [])
              ++ [Ev.xSemaphoreTake sem_loraEvent 10])
       end).
Proof.
  split; [|split].
  - intros ops s x y. apply blind_run, forget_set.
  - intros created ir tr s x y. apply blind_initLoRa, forget_set.
  - intros now s. apply back_to_sleep_eq.
Qed.

(** ** Further properties: schedules, callbacks, initialisation *)


Lemma invoke_eq LOG DBG now c s :
  ready s → dump_fits LOG c = true →
  invoke LOG DBG now c s = Done tt (callback_state LOG c s) (callback_events LOG DBG now c s).
Proof.
  intros [Hle Hlen] Hfit.
  destruct c as [| payload size rssi' snr | | | | [|]].
  7:{ cbn [invoke]. rewrite OnCadDone_free_eq.
      replace (14 <=? _) with true by (symmetry; apply Z.leb_le; lia).
      destruct s, DBG; reflexivity. }
  all: destruct s as [re ct cto cfr buf rssi th le te et ld rd]; cbn [loraEvent] in Hle;
    (destruct le as [cr|]; [clear Hle|done]).
  2:{ destruct LOG.
      - destruct (dump_fits_loop payload size rssi' snr Hfit) as [str Hstr].
        unfold invoke, OnRxDone, format_rcvdData, callback_events. rewrite Hstr.
        destruct DBG, te; reflexivity.
      - destruct DBG, te; reflexivity. }
  all: destruct LOG, DBG; reflexivity.
Qed.

Lemma ready_callback_state LOG c s : ready s → ready (callback_state LOG c s).
Proof.
  intros [Hle Hlen]. destruct s as [re ct cto cfr buf rssi th le te et ld rd].
  cbn [loraEvent TxdBuffer] in *.
  destruct c as [| | | | | []]; (split; [|exact Hlen]); cbn; done.
Qed.

Lemma ready_woken LOG s : ready s → ready (woken LOG s).
Proof. intros [Hle Hlen]. destruct s. split; [done|exact Hlen]. Qed.

Lemma ready_step_state LOG o s : ready s → ready (step_state LOG o s).
Proof.
  intros H. destruct o as [|pending now|t1 t2|c now]; cbn [step_state].
  - destruct H as [Hle Hlen]. destruct s. split; [done|exact Hlen].
  - destruct (loraEvent s) as [[|]|]; try exact H.
    destruct (delivered pending s); [apply ready_callback_state|]; apply ready_woken, H.
  - destruct H as [Hle Hlen]. split; [done|]. cbn [TxdBuffer length OutgoingFrame app].
    rewrite length_drop, Hlen. reflexivity.
  - apply ready_callback_state, H.
Qed.

Lemma exec_eq LOG DBG o s :
  ready s → op_fits LOG o = true →
  exec LOG DBG o s = Done tt (step_state LOG o s) (step_events LOG DBG o s).
Proof.
  intros H Hfit. destruct o as [|pending now|t1 t2|c now]; cbn [exec step_state step_events].
  - rewrite loraIntHandler_eq. destruct H as [Hle _]. destruct (loraEvent s); done.
  - cbv [mbind M_bind mret M_ret]. rewrite loraTask_iteration_eq.
    pose proof H as [Hle _].
    destruct (loraEvent s) as [[|]|] eqn:E; [|reflexivity|done].
    rewrite Radio_IrqProcessAfterDeepSleep_eq. fold (woken LOG s).
    assert (RadioEvents (woken LOG s) = RadioEvents s) as -> by (destruct s; reflexivity).
    unfold delivered. destruct pending as [c|].
    2:{ rewrite !app_nil_r. reflexivity. }
    destruct (registered _ _).
    2:{ rewrite !app_nil_r. reflexivity. }
    rewrite (invoke_eq LOG DBG now c _ (ready_woken LOG s H) Hfit).
    rewrite !app_nil_r. reflexivity.
  - apply sendLoRa_done, H.
  - apply invoke_eq; assumption.
Qed.

Lemma run_step LOG DBG o ops s :
  ready s → op_fits LOG o = true →
  run LOG DBG (o :: ops) s =
    match run LOG DBG ops (step_state LOG o s) with
    | Done y s' evs => Done y s' (step_events LOG DBG o s ++ evs)
    | Fault => Fault
    end.
Proof. intros H Hfit. rewrite run_cons, exec_eq by assumption. reflexivity. Qed.

Lemma ready_run_state LOG ops s : ready s → ready (run_state LOG ops s).
Proof.
  revert s. induction ops as [|o ops IH]; intros s H; [exact H|].
  apply IH, ready_step_state, H.
Qed.

Lemma run_eq LOG DBG ops s :
  ready s → forallb (op_fits LOG) ops = true →
  run LOG DBG ops s = Done tt (run_state LOG ops s) (run_events LOG DBG ops s).
Proof.
  revert s. induction ops as [|o ops IH]; intros s H Hfit; [reflexivity|].
  cbn [forallb] in Hfit. apply andb_true_iff in Hfit as [Ho Hops].
  rewrite run_step by assumption.
  rewrite IH by (try apply ready_step_state; assumption). reflexivity.
Qed.

(** X1. Once the semaphore exists, no schedule of interrupt edges, iterations of
    the task's loop, calls of [sendLoRa] and calls of the callbacks faults, as
    long as every hex dump fits: the run completes, the semaphore stays
    created and the transmit buffer keeps its 256 bytes. *)
Theorem run_never_faults LOG DBG ops s :
  ready s → forallb (op_fits LOG) ops = true →
  ∃ s' evs, run LOG DBG ops s = Done tt s' evs ∧ ready s'.
Proof.
  intros H Hfit. eexists _, _. split; [apply run_eq; assumption|].
  apply ready_run_state, H.
Qed.

Lemma run_never_faults_witness :
  let ops := [op_sendLoRa 100 101; op_edge; op_loop (Some (call_OnCadDone false)) 110;
              op_callback (call_OnRxDone [1; 2; 3] 3 (-80) 5) 120; op_sendLoRa 200 201] in
  ready (booted true) ∧ forallb (op_fits true) ops = true ∧
  ∃ s' evs, run true true ops (booted true) = Done tt s' evs ∧ ready s'.
Proof.
  intros ops.
  assert (H1 : ready (booted true)) by (split; [discriminate | reflexivity]).
  assert (H2 : forallb (op_fits true) ops = true) by reflexivity.
  split; [exact H1|]. split; [exact H2|].
  exact (run_never_faults true true ops (booted true) H1 H2).
Defined.

Lemma sends_app evs1 evs2 : sends (evs1 ++ evs2) = sends evs1 ++ sends evs2.
Proof. apply List.filter_app. Qed.

Lemma TxdBuffer_callback_state LOG c s : TxdBuffer (callback_state LOG c s) = TxdBuffer s.
Proof. destruct s, c as [| | | | | []]; reflexivity. Qed.

Lemma TxdBuffer_woken LOG s : TxdBuffer (woken LOG s) = TxdBuffer s.
Proof. destruct s; reflexivity. Qed.

Lemma sends_callback_events LOG DBG now c s :
  sends (callback_events LOG DBG now c s) =
    match c with
    | call_OnCadDone false => [Ev.Radio_Send (take 14 (TxdBuffer s)) 14]
    | _ => []
    end.
Proof.
  destruct c as [| | | | | []]; cbn [callback_events]; destruct LOG, DBG;
    try reflexivity; destruct (taskEvent s); reflexivity.
Qed.

Lemma TxdBuffer_step_state LOG o s :
  TxdBuffer (step_state LOG o s) =
    if is_sendLoRa o then OutgoingFrame ++ drop 14 (TxdBuffer s) else TxdBuffer s.
Proof.
  destruct o as [|pending now|t1 t2|c now]; cbn [step_state is_sendLoRa].
  - destruct s; reflexivity.
  - destruct (loraEvent s) as [[|]|]; try reflexivity.
    destruct (delivered pending s); rewrite ?TxdBuffer_callback_state; apply TxdBuffer_woken.
  - reflexivity.
  - apply TxdBuffer_callback_state.
Qed.

Lemma sends_step_events LOG DBG o s :
  Forall (λ e, e = Ev.Radio_Send (take 14 (TxdBuffer s)) 14) (sends (step_events LOG DBG o s)).
Proof.
  destruct o as [|pending now|t1 t2|c now]; cbn [step_events].
  - constructor.
  - destruct (loraEvent s) as [[|]|]; try constructor.
    rewrite !sends_app.
    assert (sends [Ev.xSemaphoreTake sem_loraEvent portMAX_DELAY] = []) as -> by reflexivity.
    assert (sends (if LOG then [Ev.digitalWrite LED_CONN HIGH] else []) = []) as ->
      by (destruct LOG; reflexivity).
    assert (sends [Ev.Radio_IrqProcessAfterDeepSleep] = []) as -> by reflexivity.
    cbn [app]. destruct (delivered pending s) as [c|]; [|constructor].
    rewrite sends_callback_events, TxdBuffer_woken.
    destruct c as [| | | | | []]; repeat constructor.
  - destruct LOG; constructor.
  - rewrite sends_callback_events. destruct c as [| | | | | []]; repeat constructor.
Qed.

Lemma framed_step_state LOG o s : framed s ∨ is_sendLoRa o = true → framed (step_state LOG o s).
Proof.
  unfold framed. rewrite TxdBuffer_step_state. destruct (is_sendLoRa o).
  - intros _. reflexivity.
  - intros [H|H]; [exact H|discriminate].
Qed.

Lemma sends_run_events LOG DBG ops s :
  framed s → Forall (λ e, e = Ev.Radio_Send OutgoingFrame 14) (sends (run_events LOG DBG ops s)).
Proof.
  revert s. induction ops as [|o ops IH]; intros s H; cbn [run_events]; [constructor|].
  rewrite sends_app. apply Forall_app. split.
  - rewrite <- H. apply sends_step_events.
  - apply IH, framed_step_state. left. exact H.
Qed.

(** X2. After a call of [sendLoRa], whatever happens next (edges, loop
    iterations, callbacks, further calls of [sendLoRa]), every call of
    [Radio.Send] carries the 14 bytes of the frame and the length 14. *)
Theorem every_send_carries_the_frame LOG DBG t1 t2 ops s :
  ready s → forallb (op_fits LOG) ops = true →
  ∃ s' evs, run LOG DBG (op_sendLoRa t1 t2 :: ops) s = Done tt s' evs ∧
    Forall (λ e, e = Ev.Radio_Send OutgoingFrame 14) (sends evs).
Proof.
  intros H Hfit. eexists _, _. split; [apply run_eq; [exact H|exact Hfit]|].
  cbn [run_events]. rewrite sends_app. apply Forall_app. split.
  - cbn [step_events]. destruct LOG; constructor.
  - apply sends_run_events, framed_step_state. right. reflexivity.
Qed.

Lemma every_send_carries_the_frame_witness :
  let ops := [op_edge; op_loop (Some (call_OnCadDone false)) 110;
              op_callback (call_OnCadDone false) 120] in
  ready (booted false) ∧ forallb (op_fits false) ops = true ∧
  ∃ s' evs, run false false (op_sendLoRa 100 101 :: ops) (booted false) = Done tt s' evs ∧
    Forall (λ e, e = Ev.Radio_Send OutgoingFrame 14) (sends evs).
Proof.
  intros ops.
  assert (H1 : ready (booted false)) by (split; [discriminate | reflexivity]).
  assert (H2 : forallb (op_fits false) ops = true) by reflexivity.
  split; [exact H1|]. split; [exact H2|].
  exact (every_send_carries_the_frame false false 100 101 ops (booted false) H1 H2).
Defined.

Lemma stamps_callback_state LOG c s :
  cadTime (callback_state LOG c s) = cadTime s ∧
  channelTimeout (callback_state LOG c s) = channelTimeout s.
Proof. destruct s, c as [| | | | | []]; split; reflexivity. Qed.

Lemma stores_callback_events LOG DBG now c s :
  List.filter is_store_TxdBuffer (callback_events LOG DBG now c s) = [].
Proof.
  destruct c as [| | | | | []]; cbn [callback_events]; destruct LOG, DBG;
    try reflexivity; destruct (taskEvent s); reflexivity.
Qed.

Lemma quiet_step LOG DBG o s :
  is_sendLoRa o = false →
  TxdBuffer (step_state LOG o s) = TxdBuffer s ∧
  cadTime (step_state LOG o s) = cadTime s ∧
  channelTimeout (step_state LOG o s) = channelTimeout s ∧
  List.filter is_store_TxdBuffer (step_events LOG DBG o s) = [].
Proof.
  intros Ho. split; [rewrite TxdBuffer_step_state, Ho; reflexivity|].
  destruct o as [|pending now|t1 t2|c now]; try discriminate Ho; cbn [step_state step_events].
  - destruct s; repeat split; reflexivity.
  - destruct (loraEvent s) as [[|]|]; try (repeat split; reflexivity).
    destruct (delivered pending s) as [c|].
    + destruct (stamps_callback_state LOG c (woken LOG s)) as [-> ->].
      rewrite !List.filter_app, stores_callback_events.
      destruct s, LOG; repeat split; reflexivity.
    + destruct s, LOG; repeat split; reflexivity.
  - destruct (stamps_callback_state LOG c s) as [-> ->].
    rewrite stores_callback_events. repeat split; reflexivity.
Qed.

(** X3. [sendLoRa] is the only function that writes the transmit buffer and
    the two time stamps: along a schedule without it, [TxdBuffer], [cadTime]
    and [channelTimeout] are unchanged and no byte of the buffer is stored. *)
Theorem only_sendLoRa_writes_the_frame LOG DBG ops s :
  ready s → forallb (op_fits LOG) ops = true →
  forallb (λ o, negb (is_sendLoRa o)) ops = true →
  ∃ s' evs, run LOG DBG ops s = Done tt s' evs ∧
    TxdBuffer s' = TxdBuffer s ∧ cadTime s' = cadTime s ∧ channelTimeout s' = channelTimeout s ∧
    List.filter is_store_TxdBuffer evs = [].
Proof.
  intros H Hfit Hq. eexists _, _. split; [apply run_eq; assumption|].
  clear H Hfit. revert s. induction ops as [|o ops IH]; intros s; [repeat split; reflexivity|].
  cbn [forallb] in Hq. apply andb_true_iff in Hq as [Ho Hops].
  apply negb_true_iff in Ho.
  destruct (quiet_step LOG DBG o s Ho) as (Hb & Hc & Ht & He).
  destruct (IH Hops (step_state LOG o s)) as (Hb' & Hc' & Ht' & He').
  cbn [run_state run_events]. rewrite List.filter_app, He, He'.
  repeat split; congruence.
Qed.

Lemma only_sendLoRa_writes_the_frame_witness :
  let ops := [op_edge; op_loop (Some call_OnTxDone) 110;
              op_callback (call_OnRxDone [1; 2; 3] 3 (-80) 5) 120] in
  ready (booted true) ∧ forallb (op_fits true) ops = true ∧
  forallb (λ o, negb (is_sendLoRa o)) ops = true ∧
  ∃ s' evs, run true true ops (booted true) = Done tt s' evs ∧
    TxdBuffer s' = TxdBuffer (booted true) ∧ cadTime s' = cadTime (booted true) ∧
    channelTimeout s' = channelTimeout (booted true) ∧
    List.filter is_store_TxdBuffer evs = [].
Proof.
  intros ops.
  assert (H1 : ready (booted true)) by (split; [discriminate | reflexivity]).
  assert (H2 : forallb (op_fits true) ops = true) by reflexivity.
  assert (H3 : forallb (λ o, negb (is_sendLoRa o)) ops = true) by reflexivity.
  split; [exact H1|]. split; [exact H2|]. split; [exact H3|].
  exact (only_sendLoRa_writes_the_frame true true ops (booted true) H1 H2 H3).
Defined.

Lemma wakeups_callback_events LOG DBG now c s : wakeups (callback_events LOG DBG now c s) = 0%nat.
Proof.
  destruct c as [| | | | | []]; cbn [callback_events]; destruct LOG, DBG;
    try reflexivity; destruct (taskEvent s); reflexivity.
Qed.

Lemma credit_callback_state LOG c s : (credit (callback_state LOG c s) ≤ credit s)%nat.
Proof. destruct s as [? ? ? ? ? ? ? [[|]|] ? ? ? ?], c as [| | | | | []]; cbn; lia. Qed.

Lemma credit_step LOG DBG o s :
  ready s →
  (wakeups (step_events LOG DBG o s) + credit (step_state LOG o s)
   ≤ credit s + (if is_edge o then 1 else 0))%nat.
Proof.
  intros [Hle _]. destruct o as [|pending now|t1 t2|c now]; cbn [step_state step_events is_edge].
  - destruct s as [? ? ? ? ? ? ? [[|]|] ? ? ? ?]; cbn; lia.
  - unfold credit at 2. destruct (loraEvent s) as [[|]|] eqn:E.
    + rewrite !wakeups_app.
      assert (credit (woken LOG s) = 0%nat) as Hw by (destruct s; reflexivity).
      destruct (delivered pending s) as [c|].
      * pose proof (credit_callback_state LOG c (woken LOG s)).
        rewrite wakeups_callback_events. destruct LOG; cbn; lia.
      * destruct LOG; cbn; lia.
    + unfold credit. rewrite E. cbn. lia.
    + done.
  - destruct LOG; cbn; lia.
  - pose proof (credit_callback_state LOG c s). rewrite wakeups_callback_events. lia.
Qed.

(** X4. Along any schedule, also with calls of [sendLoRa] and callbacks called
    directly, the wake-ups of the task plus the credit left are at most the
    interrupt edges plus the credit at the start: only an edge creates a
    credit, and every other operation can only consume it. *)
Theorem wakeups_bounded_for_all_operations LOG DBG ops s :
  ready s → forallb (op_fits LOG) ops = true →
  ∃ s' evs, run LOG DBG ops s = Done tt s' evs ∧
    (wakeups evs + credit s' ≤ credit s + edges ops)%nat.
Proof.
  intros H Hfit. eexists _, _. split; [apply run_eq; assumption|].
  clear Hfit. revert s H. induction ops as [|o ops IH]; intros s H; [cbn; lia|].
  cbn [run_state run_events]. rewrite wakeups_app.
  pose proof (credit_step LOG DBG o s H).
  pose proof (IH _ (ready_step_state LOG o s H)).
  unfold edges in *. cbn [List.filter]. destruct (is_edge o); cbn [length] in *; lia.
Qed.

Lemma wakeups_bounded_for_all_operations_witness :
  let ops := [op_edge; op_sendLoRa 100 101; op_loop None 105; op_edge;
              op_callback call_OnRxError 106; op_loop (Some call_OnTxDone) 110] in
  ready (booted true) ∧ forallb (op_fits true) ops = true ∧
  ∃ s' evs, run true true ops (booted true) = Done tt s' evs ∧
    (wakeups evs + credit s' ≤ credit (booted true) + edges ops)%nat.
Proof.
  intros ops.
  assert (H1 : ready (booted true)) by (split; [discriminate | reflexivity]).
  assert (H2 : forallb (op_fits true) ops = true) by reflexivity.
  split; [exact H1|]. split; [exact H2|].
  exact (wakeups_bounded_for_all_operations true true ops (booted true) H1 H2).
Defined.

(** X5. The take that ends [sendLoRa] swallows a pending wake-up: after any
    number of interrupt edges followed by [sendLoRa] no credit is left, and
    the next iteration of the task's loop stays suspended. *)
Theorem sendLoRa_swallows_pending_edges LOG DBG k t1 t2 pending now s :
  ready s → op_fits LOG (op_loop pending now) = true →
  ∃ s1 evs1 s2 evs2,
    run LOG DBG (replicate k op_edge ++ [op_sendLoRa t1 t2]) s = Done tt s1 evs1 ∧
    loraEvent s1 = Some false ∧
    loraTask_iteration LOG DBG pending now s1 = Done false s2 evs2 ∧
    wakeups (evs1 ++ evs2) = 0%nat.
Proof.
  intros H Hfit.
  assert (Hf : forallb (op_fits LOG) (replicate k op_edge ++ [op_sendLoRa t1 t2]) = true).
  { rewrite forallb_app. apply andb_true_iff. split; [|reflexivity].
    clear. induction k as [|k IH]; [reflexivity|exact IH]. }
  assert (Hst : ∀ s0, loraEvent (run_state LOG (replicate k op_edge ++ [op_sendLoRa t1 t2]) s0)
                      = Some false).
  { clear. induction k as [|k IH]; intros s0; [reflexivity|].
    cbn [replicate app run_state]. apply IH. }
  assert (Hev : ∀ s0, wakeups (run_events LOG DBG (replicate k op_edge ++ [op_sendLoRa t1 t2]) s0)
                      = 0%nat).
  { clear. induction k as [|k IH]; intros s0.
    - destruct LOG; reflexivity.
    - cbn [replicate app run_events]. rewrite wakeups_app, IH. reflexivity. }
  eexists _, _, _, _. split; [apply run_eq; assumption|].
  split; [apply Hst|]. rewrite loraTask_iteration_eq, Hst.
  split; [reflexivity|]. rewrite app_nil_r. apply Hev.
Qed.

Lemma sendLoRa_swallows_pending_edges_witness :
  ready (booted true) ∧ op_fits true (op_loop (Some (call_OnCadDone false)) 110) = true ∧
  ∃ s1 evs1 s2 evs2,
    run true true (replicate 2 op_edge ++ [op_sendLoRa 100 101]) (booted true)
      = Done tt s1 evs1 ∧
    loraEvent s1 = Some false ∧
    loraTask_iteration true true (Some (call_OnCadDone false)) 110 s1 = Done false s2 evs2 ∧
    wakeups (evs1 ++ evs2) = 0%nat.
Proof.
  assert (H1 : ready (booted true)) by (split; [discriminate | reflexivity]).
  assert (H2 : op_fits true (op_loop (Some (call_OnCadDone false)) 110) = true) by reflexivity.
  split; [exact H1|]. split; [exact H2|].
  exact (sendLoRa_swallows_pending_edges true true 2 100 101 _ 110 (booted true) H1 H2).
Defined.

Lemma led_callback LOG DBG now c s :
  LOG = false →
  led (callback_state LOG c s) = led s ∧
  List.filter is_led_write (callback_events LOG DBG now c s) = [].
Proof.
  intros ->. destruct s as [re ct cto cfr buf rssi th le te et ld rd].
  destruct c as [| | | | | []], DBG; split; try reflexivity;
    cbn; destruct te; reflexivity.
Qed.

Lemma led_step DBG o s :
  led (step_state false o s) = led s ∧
  List.filter is_led_write (step_events false DBG o s) = [].
Proof.
  destruct o as [|pending now|t1 t2|c now]; cbn [step_state step_events].
  - destruct s; split; reflexivity.
  - destruct (loraEvent s) as [[|]|]; try (split; reflexivity).
    destruct (delivered pending s) as [c|].
    + destruct (led_callback false DBG now c (woken false s) eq_refl) as [-> He].
      rewrite !List.filter_app, He. destruct s; split; reflexivity.
    + destruct s; split; reflexivity.
  - split; reflexivity.
  - apply led_callback. reflexivity.
Qed.

(** X6. When logging is compiled out, nothing ever drives the indicator:
    along any schedule there is no [digitalWrite] on [LED_CONN] and its level
    is unchanged. *)
Theorem indicator_untouched_without_logging DBG ops s :
  ready s →
  ∃ s' evs, run false DBG ops s = Done tt s' evs ∧
    led s' = led s ∧ List.filter is_led_write evs = [].
Proof.
  intros H.
  assert (Hfit : forallb (op_fits false) ops = true).
  { induction ops as [|o ops IH]; [reflexivity|]. cbn [forallb]. rewrite IH, andb_true_r.
    destruct o as [|[[]|]| |[]]; reflexivity. }
  eexists _, _. split; [apply run_eq; assumption|].
  clear H Hfit. revert s. induction ops as [|o ops IH]; intros s; [split; reflexivity|].
  cbn [run_state run_events]. destruct (led_step DBG o s) as [Hl He].
  destruct (IH (step_state false o s)) as [Hl' He'].
  rewrite List.filter_app, He, He'. split; [congruence|reflexivity].
Qed.

Lemma indicator_untouched_without_logging_witness :
  let ops := [op_sendLoRa 100 101; op_edge; op_loop (Some (call_OnCadDone true)) 110] in
  ready (booted false) ∧
  ∃ s' evs, run false false ops (booted false) = Done tt s' evs ∧
    led s' = led (booted false) ∧ List.filter is_led_write evs = [].
Proof.
  intros ops.
  assert (H1 : ready (booted false)) by (split; [discriminate | reflexivity]).
  split; [exact H1|].
  exact (indicator_untouched_without_logging false ops (booted false) H1).
Defined.

(** X7. A whole transmit cycle: [sendLoRa], the CAD interrupt delivered as
    [OnCadDone] with the channel free, then the transmit interrupt delivered
    as [OnTxDone].  The task wakes twice, the frame is sent exactly once, and
    the module ends as it started the cycle: radio asleep, no credit, indicator
    off where it is driven. *)
Theorem transmit_cycle_returns_to_sleep LOG DBG t1 t2 now1 now2 s :
  ready s → CadDone (RadioEvents s) = true → TxDone (RadioEvents s) = true →
  ∃ s' evs,
    run LOG DBG [op_sendLoRa t1 t2; op_edge; op_loop (Some (call_OnCadDone false)) now1;
                 op_edge; op_loop (Some call_OnTxDone) now2] s = Done tt s' evs ∧
    sends evs = [Ev.Radio_Send OutgoingFrame 14] ∧
    wakeups evs = 2%nat ∧
    radio s' = Sleeping ∧ loraEvent s' = Some false ∧
    led s' = (if LOG then LOW else led s) ∧
    TxdBuffer s' = OutgoingFrame ++ drop 14 (TxdBuffer s) ∧ cadTime s' = t1.
Proof.
  intros H Hcad Htx. eexists _, _. split; [apply run_eq; [exact H|reflexivity]|].
  destruct s as [re ct cto cfr buf rssi th le te et ld rd].
  cbn [RadioEvents] in Hcad, Htx.
  cbn [run_state run_events step_state step_events loraEvent set_loraEvent delivered
       RadioEvents cadTime channelTimeout channelFreeRetryNum TxdBuffer lastRSSI loraTaskHandle
       taskEvent eventType led radio entry_of registered woken set_led].
  rewrite Hcad. cbn [callback_state callback_events set_radio loraEvent
       RadioEvents cadTime channelTimeout channelFreeRetryNum TxdBuffer lastRSSI loraTaskHandle
       taskEvent eventType led radio set_loraEvent delivered entry_of registered woken set_led].
  rewrite Htx. destruct LOG, DBG; repeat split; reflexivity.
Qed.

Lemma transmit_cycle_returns_to_sleep_witness :
  ready (booted true) ∧ CadDone (RadioEvents (booted true)) = true ∧
  TxDone (RadioEvents (booted true)) = true ∧
  ∃ s' evs,
    run true true [op_sendLoRa 100 101; op_edge; op_loop (Some (call_OnCadDone false)) 110;
                   op_edge; op_loop (Some call_OnTxDone) 150] (booted true) = Done tt s' evs ∧
    sends evs = [Ev.Radio_Send OutgoingFrame 14] ∧
    wakeups evs = 2%nat ∧
    radio s' = Sleeping ∧ loraEvent s' = Some false ∧
    led s' = LOW ∧
    TxdBuffer s' = OutgoingFrame ++ drop 14 (TxdBuffer (booted true)) ∧ cadTime s' = 100.
Proof.
  assert (H1 : ready (booted true)) by (split; [discriminate | reflexivity]).
  assert (H2 : CadDone (RadioEvents (booted true)) = true) by reflexivity.
  assert (H3 : TxDone (RadioEvents (booted true)) = true) by reflexivity.
  split; [exact H1|]. split; [exact H2|]. split; [exact H3|].
  exact (transmit_cycle_returns_to_sleep true true 100 101 110 150 (booted true) H1 H2 H3).
Defined.

(** X8. [OnTxDone], [OnTxTimeout], [OnRxTimeout], [OnRxError] and [OnCadDone]
    with the channel busy are the same function up to their log line: each
    changes nothing but the radio mode, the indicator and the wake credit,
    and apart from logging each performs [Radio.Sleep], the indicator write
    where compiled in, and the bounded take. *)
Theorem plain_callbacks_only_sleep LOG DBG now c s :
  ready s → plain c = true →
  ∃ evs,
    invoke LOG DBG now c s =
      Done tt (set_loraEvent (Some false)
                 (set_led (if LOG then LOW else led s) (set_radio Sleeping s))) evs ∧
    List.filter (λ e, negb (Ev.is_logging e)) evs =
      [Ev.Radio_Sleep] ++ (if LOG then [Ev.digitalWrite LED_CONN LOW] else [])
      ++ [Ev.xSemaphoreTake sem_loraEvent 10].
Proof.
  intros H Hp. eexists. split.
  - rewrite invoke_eq; [|exact H|destruct c as [| | | | | []]; done].
    destruct c as [| | | | | []]; try discriminate Hp; reflexivity.
  - destruct c as [| | | | | []]; try discriminate Hp; destruct LOG, DBG; reflexivity.
Qed.

Lemma plain_callbacks_only_sleep_witness :
  ready (booted true) ∧ plain call_OnRxTimeout = true ∧
  ∃ evs,
    invoke true true 0 call_OnRxTimeout (booted true) =
      Done tt (set_loraEvent (Some false) (set_led LOW (set_radio Sleeping (booted true)))) evs ∧
    List.filter (λ e, negb (Ev.is_logging e)) evs =
      [Ev.Radio_Sleep] ++ [Ev.digitalWrite LED_CONN LOW]
      ++ [Ev.xSemaphoreTake sem_loraEvent 10].
Proof.
  assert (H1 : ready (booted true)) by (split; [discriminate | reflexivity]).
  assert (H2 : plain call_OnRxTimeout = true) by reflexivity.
  split; [exact H1|]. split; [exact H2|].
  exact (plain_callbacks_only_sleep true true 0 call_OnRxTimeout (booted true) H1 H2).
Defined.

(** X9. [OnRxDone] sets [eventType] to 0, posts the credit of [taskEvent] when
    that semaphore exists (and leaves a null handle alone), and goes back to
    sleep.  It does not touch the transmit buffer, and it ignores the signal
    strength it is given: [lastRSSI] is unchanged and the outcome is the same
    for every [rssi] and [snr]. *)
Theorem OnRxDone_notifies_and_ignores_rssi LOG DBG payload size rssi snr s :
  ready s → dump_fits LOG (call_OnRxDone payload size rssi snr) = true →
  ∃ s' evs,
    OnRxDone LOG DBG payload size rssi snr s = Done tt s' evs ∧
    eventType s' = 0 ∧
    taskEvent s' = match taskEvent s with Some _ => Some true | None => None end ∧
    lastRSSI s' = lastRSSI s ∧
    TxdBuffer s' = TxdBuffer s ∧
    asleep_and_cleared LOG s s' ∧
    ∀ rssi' snr', OnRxDone LOG DBG payload size rssi' snr' s = Done tt s' evs.
Proof.
  intros H Hfit. eexists _, _.
  split; [exact (invoke_eq LOG DBG 0 (call_OnRxDone payload size rssi snr) s H Hfit)|].
  do 5 (split; [destruct s; repeat split; reflexivity|]).
  intros rssi' snr'.
  exact (invoke_eq LOG DBG 0 (call_OnRxDone payload size rssi' snr') s H Hfit).
Qed.

Lemma OnRxDone_notifies_and_ignores_rssi_witness :
  let s := set_taskEvent (Some false) (booted true) in
  ready s ∧ dump_fits true (call_OnRxDone [1; 2; 3] 3 (-80) 5) = true ∧
  ∃ s' evs,
    OnRxDone true true [1; 2; 3] 3 (-80) 5 s = Done tt s' evs ∧
    eventType s' = 0 ∧
    taskEvent s' = match taskEvent s with Some _ => Some true | None => None end ∧
    lastRSSI s' = lastRSSI s ∧
    TxdBuffer s' = TxdBuffer s ∧
    asleep_and_cleared true s s' ∧
    ∀ rssi' snr', OnRxDone true true [1; 2; 3] 3 rssi' snr' s = Done tt s' evs.
Proof.
  intros s.
  assert (H1 : ready s) by (split; [discriminate | reflexivity]).
  assert (H2 : dump_fits true (call_OnRxDone [1; 2; 3] 3 (-80) 5) = true) by reflexivity.
  split; [exact H1|]. split; [exact H2|].
  exact (OnRxDone_notifies_and_ignores_rssi true true [1; 2; 3] 3 (-80) 5 s H1 H2).
Defined.

Lemma rcvdData_loop_Some payload n idx index acc :
  is_Some (rcvdData_loop payload n idx index acc) →
  n = 0%nat ∨ (idx + 3 * Z.of_nat n < 1024 ∧ (index + n ≤ length payload)%nat).
Proof.
  revert idx index acc. induction n as [|n IH]; intros idx index acc H; [left; reflexivity|].
  right. cbn [rcvdData_loop] in H.
  destruct (payload !! index) as [b|] eqn:Eb; [|destruct H; discriminate].
  apply lookup_lt_Some in Eb.
  destruct (Z.ltb_spec (idx + 3) 1024); [|destruct H; discriminate].
  destruct (IH _ _ _ H) as [->|[H1 H2]]; lia.
Qed.

(** X10. With logging compiled in, [OnRxDone] stays inside its 1024-character
    array [rcvdData] and inside the payload exactly when the size is at most
    341 and at most the number of bytes of the payload; any larger size runs
    past one of them. *)
Theorem OnRxDone_dump_bounds DBG payload size rssi snr s :
  ready s →
  (completes (OnRxDone true DBG payload size rssi snr s) = true
   ↔ size <= 341 ∧ size <= Z.of_nat (length payload)).
Proof.
  intros H. split.
  - intros Hc.
    destruct (rcvdData_loop payload (Z.to_nat size) 0 0 "") as [str|] eqn:E.
    + destruct (rcvdData_loop_Some payload (Z.to_nat size) 0 0 "") as [Hz|[H1 H2]];
        [rewrite E; eauto| |]; lia.
    + exfalso. revert Hc. unfold OnRxDone, format_rcvdData. rewrite E.
      destruct s as [re ct cto cfr buf rssi0 th le te et ld rd], DBG, te; discriminate.
  - intros [H1 H2].
    change (OnRxDone true DBG payload size rssi snr s)
      with (invoke true DBG 0 (call_OnRxDone payload size rssi snr) s).
    rewrite invoke_eq; [reflexivity|exact H|].
    cbn [dump_fits negb orb]. apply andb_true_iff. split; apply Z.leb_le; assumption.
Qed.

Lemma OnRxDone_dump_bounds_witness :
  ready (booted true) ∧
  (completes (OnRxDone true true (replicate 400 171) 342 (-80) 5 (booted true)) = true
   ↔ 342 <= 341 ∧ 342 <= Z.of_nat (length (replicate 400 171))).
Proof.
  assert (H1 : ready (booted true)) by (split; [discriminate | reflexivity]).
  split; [exact H1|].
  exact (OnRxDone_dump_bounds true (replicate 400 171) 342 (-80) 5 (booted true) H1).
Defined.

Lemma length_hex_digit n : String.length (hex_digit n) = 1%nat.
Proof.
  destruct n as [|p|p]; [reflexivity| |reflexivity].
  do 5 (try destruct p as [p|p|]; try reflexivity).
Qed.

Lemma length_string_app (a b : string) :
  String.length (a ++ b) = (String.length a + String.length b)%nat.
Proof. induction a as [|c a IH]; cbn; [reflexivity|]. rewrite IH. reflexivity. Qed.

Lemma length_sprintf_02X b : String.length (sprintf_02X b) = 3%nat.
Proof. unfold sprintf_02X. rewrite !length_string_app, !length_hex_digit. reflexivity. Qed.

Lemma string_app_assoc (a b c : string) : ((a ++ b) ++ c = a ++ (b ++ c))%string.
Proof. induction a as [|x a IH]; cbn; [reflexivity|]. rewrite IH. reflexivity. Qed.

Lemma string_app_nil_r (a : string) : (a ++ "")%string = a.
Proof. induction a as [|c a IH]; cbn; congruence. Qed.

Lemma rcvdData_loop_content payload n idx index acc str :
  rcvdData_loop payload n idx index acc = Some str →
  str = (acc ++ hex_dump (take n (drop index payload)))%string.
Proof.
  revert idx index acc. induction n as [|n IH]; intros idx index acc H.
  - cbn in H. injection H as <-. cbn. symmetry. apply string_app_nil_r.
  - cbn [rcvdData_loop] in H.
    destruct (payload !! index) as [b|] eqn:Eb; [|discriminate].
    destruct (idx + 3 <? 1024); [|discriminate].
    apply IH in H. rewrite H, string_app_assoc. f_equal.
    rewrite (drop_S _ _ _ Eb). reflexivity.
Qed.

Lemma length_hex_dump bytes : String.length (hex_dump bytes) = (3 * length bytes)%nat.
Proof.
  induction bytes as [|b bytes IH]; [reflexivity|].
  cbn [hex_dump length]. rewrite length_string_app, length_sprintf_02X, IH. lia.
Qed.

(** X11. With logging and debug output compiled in, the string [OnRxDone] logs
    is the dump of the first [size] bytes of the payload, two hexadecimal
    digits and a space for each: 3 * size characters. *)
Theorem OnRxDone_logs_the_hex_dump payload size rssi snr s :
  ready s → dump_fits true (call_OnRxDone payload size rssi snr) = true →
  ∃ s' evs,
    OnRxDone true true payload size rssi snr s = Done tt s' evs ∧
    In (Ev.myLog_d (hex_dump (take (Z.to_nat size) payload)) []) evs ∧
    String.length (hex_dump (take (Z.to_nat size) payload)) = (3 * Z.to_nat size)%nat.
Proof.
  intros H Hfit. eexists _, _.
  split; [exact (invoke_eq true true 0 (call_OnRxDone payload size rssi snr) s H Hfit)|].
  destruct (dump_fits_loop payload size rssi snr Hfit) as [str Hstr].
  pose proof (rcvdData_loop_content _ _ _ _ _ _ Hstr) as ->.
  cbn [dump_fits negb orb] in Hfit. apply andb_true_iff in Hfit as [_ Hlen].
  apply Z.leb_le in Hlen.
  split.
  - cbn [callback_events log_event]. rewrite Hstr. cbn [default drop].
    rewrite !in_app_iff. right. right. right. left. left. reflexivity.
  - rewrite length_hex_dump, length_take. lia.
Qed.

Lemma OnRxDone_logs_the_hex_dump_witness :
  ready (booted true) ∧ dump_fits true (call_OnRxDone [171; 5; 255] 2 (-80) 5) = true ∧
  ∃ s' evs,
    OnRxDone true true [171; 5; 255] 2 (-80) 5 (booted true) = Done tt s' evs ∧
    In (Ev.myLog_d (hex_dump (take (Z.to_nat 2) [171; 5; 255])) []) evs ∧
    String.length (hex_dump (take (Z.to_nat 2) [171; 5; 255])) = (3 * Z.to_nat 2)%nat.
Proof.
  assert (H1 : ready (booted true)) by (split; [discriminate | reflexivity]).
  assert (H2 : dump_fits true (call_OnRxDone [171; 5; 255] 2 (-80) 5) = true) by reflexivity.
  split; [exact H1|]. split; [exact H2|].
  exact (OnRxDone_logs_the_hex_dump [171; 5; 255] 2 (-80) 5 (booted true) H1 H2).
Defined.

Example hex_dump_example : hex_dump [171; 5; 255] = "AB 05 FF "%string.
Proof. reflexivity. Qed.

(** X12. With the semaphore created, [initLoRa] always completes, and returns
    [false] exactly when [lora_rak4630_init] returned 1 or [xTaskCreate]
    returned 0; it leaves the semaphore without credit and does not touch the
    transmit buffer. *)
Theorem initLoRa_result DBG init_result task_result s :
  ∃ s' evs,
    initLoRa DBG true init_result task_result s
      = Done (negb ((init_result =? 1) || (task_result =? 0))) s' evs ∧
    loraEvent s' = Some false ∧
    TxdBuffer s' = TxdBuffer s.
Proof.
  rewrite initLoRa_eq.
  destruct (init_result =? 1); [|destruct (task_result =? 0), (task_result =? pdPASS)];
    eexists _, _; (split; [reflexivity|]); destruct s; split; reflexivity.
Qed.

(** X13. When [lora_rak4630_init] returns 1, [initLoRa] returns [false] before
    touching the radio: it makes no call of [Radio], attaches no interrupt and
    creates no task, and changes nothing but [loraEvent], created and left
    without credit. *)
Theorem initLoRa_driver_failure_stops_early DBG task_result s :
  ∃ evs,
    initLoRa DBG true 1 task_result s = Done false (set_loraEvent (Some false) s) evs ∧
    List.filter Ev.is_driver_call evs = [Ev.lora_rak4630_init] ∧
    List.filter is_attachInterrupt evs = [] ∧
    List.filter is_xTaskCreate evs = [].
Proof.
  rewrite initLoRa_eq. eexists. split; [reflexivity|]. destruct DBG; repeat split; reflexivity.
Qed.

(** X14. When [initLoRa] returns [true], all six callbacks are registered, the
    radio is asleep, the semaphore exists without credit (so the event task
    stays suspended until the first interrupt edge), and the interrupt was
    attached before the task was created. *)
Theorem initLoRa_success_state DBG init_result task_result s :
  init_result ≠ 1 → task_result ≠ 0 → length (TxdBuffer s) = 256%nat →
  ∃ s' evs pre mid,
    initLoRa DBG true init_result task_result s = Done true s' evs ∧
    RadioEvents s' = mkRadioEvents true true true true true true ∧
    radio s' = Sleeping ∧ loraEvent s' = Some false ∧ ready s' ∧
    loraTaskHandle s' = (if task_result =? pdPASS then true else loraTaskHandle s) ∧
    evs = pre ++ [Ev.attachInterrupt PIN_LORA_DIO_1 RISING] ++ mid
              ++ [Ev.xTaskCreate "LORA" 2048 TASK_PRIO_LOW; Ev.Radio_Sleep] ∧
    List.filter is_xTaskCreate pre = [] ∧
    ∀ LOG pending now, loraTask_iteration LOG DBG pending now s' = Done false s' [].
Proof.
  intros Hi Ht Hlen. rewrite initLoRa_eq.
  destruct (Z.eqb_spec init_result 1) as [|_]; [done|].
  destruct (Z.eqb_spec task_result 0) as [|_]; [done|].
  destruct s as [re ct cto cfr buf rssi th le te et ld rd]. cbn [TxdBuffer] in Hlen.
  eexists _, _,
    (initLoRa_prologue DBG ++
     [Ev.Store_RadioEvents cb_TxDone; Ev.Store_RadioEvents cb_RxDone;
      Ev.Store_RadioEvents cb_TxTimeout; Ev.Store_RadioEvents cb_RxTimeout;
      Ev.Store_RadioEvents cb_RxError; Ev.Store_RadioEvents cb_CadDone;
      Ev.Radio_Init; Ev.Radio_Sleep; Ev.Radio_SetChannel RF_FREQUENCY;
      Ev.Radio_SetTxConfig MODEM_LORA TX_OUTPUT_POWER 0 LORA_BANDWIDTH LORA_SPREADING_FACTOR
        LORA_CODINGRATE LORA_PREAMBLE_LENGTH LORA_FIX_LENGTH_PAYLOAD_ON true 0 0
        LORA_IQ_INVERSION_ON TX_TIMEOUT_VALUE;
      Ev.Radio_SetRxConfig MODEM_LORA LORA_BANDWIDTH LORA_SPREADING_FACTOR LORA_CODINGRATE 0
        LORA_PREAMBLE_LENGTH LORA_SYMBOL_TIMEOUT LORA_FIX_LENGTH_PAYLOAD_ON 0 true 0 0
        LORA_IQ_INVERSION_ON true]),
    (if DBG then [Ev.myLog_d "Starting LoRaWan task" []] else []).
  split; [reflexivity|].
  destruct (task_result =? pdPASS), DBG; cbn;
    (repeat split; try reflexivity; try discriminate; try exact Hlen).
Qed.

Lemma initLoRa_success_state_witness :
  (0 ≠ 1) ∧ (pdPASS ≠ 0) ∧ length (TxdBuffer reset_state) = 256%nat ∧
  ∃ s' evs pre mid,
    initLoRa true true 0 pdPASS reset_state = Done true s' evs ∧
    RadioEvents s' = mkRadioEvents true true true true true true ∧
    radio s' = Sleeping ∧ loraEvent s' = Some false ∧ ready s' ∧
    loraTaskHandle s' = (if pdPASS =? pdPASS then true else loraTaskHandle reset_state) ∧
    evs = pre ++ [Ev.attachInterrupt PIN_LORA_DIO_1 RISING] ++ mid
              ++ [Ev.xTaskCreate "LORA" 2048 TASK_PRIO_LOW; Ev.Radio_Sleep] ∧
    List.filter is_xTaskCreate pre = [] ∧
    ∀ LOG pending now, loraTask_iteration LOG true pending now s' = Done false s' [].
Proof.
  assert (H1 : 0 ≠ 1) by discriminate.
  assert (H2 : pdPASS ≠ 0) by discriminate.
  assert (H3 : length (TxdBuffer reset_state) = 256%nat) by reflexivity.
  split; [exact H1|]. split; [exact H2|]. split; [exact H3|].
  exact (initLoRa_success_state true 0 pdPASS reset_state H1 H2 H3).
Defined.

(** X15. A wake-up with no interrupt pending consumes the credit and calls
    [Radio.IrqProcessAfterDeepSleep] once; no callback runs, so where the
    indicator is driven it is left on.  The next iteration stays
    suspended. *)
Theorem wake_up_with_nothing_pending LOG DBG now s :
  loraEvent s = Some true →
  ∃ s',
    loraTask_iteration LOG DBG None now s =
      Done true s'
        ([Ev.xSemaphoreTake sem_loraEvent portMAX_DELAY]
         ++ (if LOG then [Ev.digitalWrite LED_CONN HIGH] else [])
         ++ [Ev.Radio_IrqProcessAfterDeepSleep]) ∧
    s' = set_led (if LOG then HIGH else led s) (set_loraEvent (Some false) s) ∧
    loraTask_iteration LOG DBG None now s' = Done false s' [].
Proof.
  intros H. rewrite loraTask_iteration_eq, H, Radio_IrqProcessAfterDeepSleep_eq.
  eexists. split; [reflexivity|]. split; [reflexivity|].
  rewrite loraTask_iteration_eq. destruct s; reflexivity.
Qed.

Lemma wake_up_with_nothing_pending_witness :
  let s := set_loraEvent (Some true) (booted true) in
  loraEvent s = Some true ∧
  ∃ s',
    loraTask_iteration true true None 0 s =
      Done true s'
        ([Ev.xSemaphoreTake sem_loraEvent portMAX_DELAY]
         ++ [Ev.digitalWrite LED_CONN HIGH]
         ++ [Ev.Radio_IrqProcessAfterDeepSleep]) ∧
    s' = set_led HIGH (set_loraEvent (Some false) s) ∧
    loraTask_iteration true true None 0 s' = Done false s' [].
Proof.
  intros s.
  assert (H1 : loraEvent s = Some true) by reflexivity.
  split; [exact H1|].
  exact (wake_up_with_nothing_pending true true 0 s H1).
Defined.

(** X16. A second call of [sendLoRa] erases the first: the state and the events
    of the second call are those of calling it alone.  [sendLoRa] leaves the
    bytes of the buffer after the frame as they were. *)
Theorem sendLoRa_twice LOG t1 t2 t1' t2' s :
  ready s →
  ∃ s1 evs1 s2 evs2,
    sendLoRa LOG t1 t2 s = Done tt s1 evs1 ∧
    sendLoRa LOG t1' t2' s1 = Done tt s2 evs2 ∧
    sendLoRa LOG t1' t2' s = Done tt s2 evs2 ∧
    drop 14 (TxdBuffer s1) = drop 14 (TxdBuffer s) ∧
    length (TxdBuffer s1) = 256%nat.
Proof.
  intros H.
  destruct (sendLoRa_ready LOG t1 t2 s _ _ H (sendLoRa_done LOG t1 t2 s H)) as (H1 & _ & _).
  eexists _, _, _, _. split; [exact (sendLoRa_done LOG t1 t2 s H)|].
  split; [exact (sendLoRa_done LOG t1' t2' _ H1)|].
  split; [rewrite (sendLoRa_done LOG t1' t2' _ H)|].
  - destruct s, LOG; reflexivity.
  - destruct H1 as [_ Hl]. split; [|exact Hl]. reflexivity.
Qed.

Lemma sendLoRa_twice_witness :
  ready (booted true) ∧
  ∃ s1 evs1 s2 evs2,
    sendLoRa true 100 101 (booted true) = Done tt s1 evs1 ∧
    sendLoRa true 200 201 s1 = Done tt s2 evs2 ∧
    sendLoRa true 200 201 (booted true) = Done tt s2 evs2 ∧
    drop 14 (TxdBuffer s1) = drop 14 (TxdBuffer (booted true)) ∧
    length (TxdBuffer s1) = 256%nat.
Proof.
  assert (H1 : ready (booted true)) by (split; [discriminate | reflexivity]).
  split; [exact H1|].
  exact (sendLoRa_twice true 100 101 200 201 (booted true) H1).
Defined.
